(** * gms_monitor: a shallow embedding of the monitoring engine

    The Python module [gms_monitor.py] probes a host once per interval,
    keeps bounded histories and lifetime counters in a [MonitorState]
    object, and derives windowed statistics, a quality label and alerts
    from the latency history.

    Conventions of the embedding:
    - Python [int] is [Z];
    - a latency as the sampler and the parsers read it from text is held
      as the exact decimal value, a rational [Q]: what is proved of the
      sampler state and of the parsers (counters, lengths, which
      attribute an outcome writes, which lines are read) does not depend
      on rounding;
    - the windowed statistics, the quality label and the alerts do
      depend on the rounding of binary floating point: they are computed
      on binary64 ([float]), operation for operation;
    - [None]-or-value is [option];
    - an expression that can raise is a computation in the [result]
      monad, so that "no exception" is a statement about the model;
    - each [with state.lock:] block is one atomic state transformer. *)

From Stdlib Require Import String Ascii.
From Stdlib Require Import ZArith QArith Qabs List Bool Lia.
From Stdlib Require Import Floats.
Import ListNotations.

Set Implicit Arguments.

(** ** Exceptions and the error monad *)

Inductive exn : Type :=
| ZeroDivisionError
| ValueError
| IndexError.

Inductive result (A : Type) : Type :=
| Ok (a : A)
| Raise (e : exn).

Arguments Ok {A} a.
Arguments Raise {A} e.

Definition bind {A B : Type} (m : result A) (k : A -> result B) : result B :=
  match m with
  | Ok a => k a
  | Raise e => Raise e
  end.

Declare Scope result_scope.
Delimit Scope result_scope with result.
Notation "x <- m ;; k" := (bind m (fun x => k))
  (at level 61, m at next level, right associativity) : result_scope.

Fixpoint mapM {A B : Type} (f : A -> result B) (l : list A) : result (list B) :=
  match l with
  | [] => Ok []
  | a :: l' =>
      bind (f a) (fun b => bind (mapM f l') (fun bs => Ok (b :: bs)))
  end.

(** ** Python primitives used by the module *)

Module Py.

Definition Qlt_bool (x y : Q) : bool :=
  (Qnum x * QDen y <? Qnum y * QDen x)%Z.

Definition len {A : Type} (l : list A) : Z := Z.of_nat (length l).

(** [a / b]: true division, raising on a zero divisor. *)
Definition truediv (a b : Q) : result Q :=
  if Qeq_bool b 0 then Raise ZeroDivisionError else Ok (a / b).

(** [l[start:]] with Python's treatment of negative and oversized
    bounds: a negative start counts from the end and is clipped at 0. *)
Definition slice_from {A : Type} (l : list A) (start : Z) : list A :=
  let n := len l in
  let lo := if (start <? 0)%Z then Z.max 0 (start + n) else Z.min start n in
  skipn (Z.to_nat lo) l.

(** [l[i]]: a negative index counts from the end; out of range raises. *)
Definition index {A : Type} (l : list A) (i : Z) : result A :=
  let j := if (i <? 0)%Z then (i + len l)%Z else i in
  if (j <? 0)%Z then Raise IndexError
  else match nth_error l (Z.to_nat j) with
       | Some a => Ok a
       | None => Raise IndexError
       end.

(** [range(a, b)] *)
Definition range (a b : Z) : list Z :=
  map (fun k => (a + Z.of_nat k)%Z) (seq 0 (Z.to_nat (b - a))).

(** [sum(l)]: starts from 0 and adds from the left. *)
Definition sum (l : list Q) : Q := fold_left Qplus l 0.

(** [min(l)]: keeps the first smallest item; empty argument raises. *)
Definition min (l : list Q) : result Q :=
  match l with
  | [] => Raise ValueError
  | x :: r => Ok (fold_left (fun m y => if Qlt_bool y m then y else m) r x)
  end.

(** [max(l)]: keeps the first largest item; empty argument raises. *)
Definition max (l : list Q) : result Q :=
  match l with
  | [] => Raise ValueError
  | x :: r => Ok (fold_left (fun m y => if Qlt_bool m y then y else m) r x)
  end.

(** [max] over integers, same convention. *)
Definition maxZ (l : list Z) : result Z :=
  match l with
  | [] => Raise ValueError
  | x :: r => Ok (fold_left (fun m y => if (m <? y)%Z then y else m) r x)
  end.

End Py.


(** ** Binary64 primitives

    The windowed statistics and the views derived from them are
    computed on Python [float]s.  Their results depend on the rounding
    of every operation, so this part of the module is embedded on
    binary64 ([PrimFloat]), operation for operation. *)

Module Float64.

(** [float(n)] for an [int] in the range of the machine's sizes: every
    length the module converts is one. *)
Definition of_int (n : Z) : float := PrimFloat.of_uint63 (Uint63.of_Z n).

(** [a / b] on two [int]s: true division, raises on a zero divisor. *)
Definition truediv_int (a b : Z) : result float :=
  if (b =? 0)%Z then Raise ZeroDivisionError
  else Ok (of_int a / of_int b)%float.

(** [a / b] on a [float] and an [int]. *)
Definition truediv (a : float) (b : Z) : result float :=
  if (b =? 0)%Z then Raise ZeroDivisionError
  else Ok (a / of_int b)%float.

(** [sum(l)]: starts from the integer 0 and adds from the left, rounding
    after each addition (the loop of CPython up to 3.11; from 3.12 on
    [sum] carries a compensation term for floats). *)
Definition sum (l : list float) : float :=
  fold_left PrimFloat.add l (of_int 0).

(** [min(l)]: keeps the first item unless a later one is less. *)
Definition min (l : list float) : result float :=
  match l with
  | [] => Raise ValueError
  | x :: r =>
      Ok (fold_left (fun m y => if (y <? m)%float then y else m) r x)
  end.

(** [max(l)]: keeps the first item unless a later one is greater. *)
Definition max (l : list float) : result float :=
  match l with
  | [] => Raise ValueError
  | x :: r =>
      Ok (fold_left (fun m y => if (m <? y)%float then y else m) r x)
  end.

End Float64.

(** ** Constants of the module *)

Definition PING_HISTORY_LENGTH : Z := 300.
Definition LOSS_HISTORY_LENGTH : Z := 300.
Definition MIN_WINDOW_SIZE : Z := 10.
Definition DEFAULT_WINDOW_SIZE : Z := 60.
Definition SHORT_WINDOW_SIZE : Z := 10.
Definition LONG_WINDOW_SIZE : Z := 600.

(** ** Windowed statistics: [compute_recent_stats] *)

(** The 7-tuple returned by [compute_recent_stats], with the names its
    docstring gives to the components. *)
Record recent_stats : Type := mk_recent_stats {
  recent_loss_pct : float;
  recent_avg_ping_ms : option float;
  recent_count : Z;
  recent_lost : Z;
  recent_min_ping_ms : option float;
  recent_max_ping_ms : option float;
  jitter_ms : option float
}.

(** [(0.0, None, 0, 0, None, None, None)] *)
Definition no_stats : recent_stats :=
  mk_recent_stats 0%float None 0 0 None None None.

(** [[v for v in recent if v is not None]] *)
Fixpoint successes_of (recent : list (option float)) : list float :=
  match recent with
  | [] => []
  | Some v :: r => v :: successes_of r
  | None :: r => successes_of r
  end.

Open Scope Z_scope.

Definition compute_recent_stats
    (ping_history : list (option float)) (window_size : Z)
  : result recent_stats :=
  if window_size <=? 0 then Ok no_stats
  else
    let recent := Py.slice_from ping_history (- window_size) in
    let recent_count := Py.len recent in
    if recent_count =? 0 then Ok no_stats
    else
      let successes := successes_of recent in
      let recent_sent := recent_count in
      let recent_success := Py.len successes in
      let recent_lost := recent_sent - recent_success in
      (recent_loss_pct <-
         (if recent_sent >? 0
          then (q <- Float64.truediv_int recent_lost recent_sent ;;
                Ok (q * 100)%float)
          else Ok 0%float) ;;
       recent_avg_ping <-
         (if recent_success >? 0
          then (a <- Float64.truediv (Float64.sum successes) recent_success ;;
                Ok (Some a))
          else Ok None) ;;
       recent_min_ping <-
         (if recent_success >? 0
          then (m <- Float64.min successes ;; Ok (Some m))
          else Ok None) ;;
       recent_max_ping <-
         (if recent_success >? 0
          then (m <- Float64.max successes ;; Ok (Some m))
          else Ok None) ;;
       jitter <-
         (if recent_success >? 1
          then (deltas <-
                  mapM (fun i =>
                          a <- Py.index successes i ;;
                          b <- Py.index successes (i - 1) ;;
                          Ok (abs (a - b))%float)
                       (Py.range 1 recent_success) ;;
                j <- Float64.truediv (Float64.sum deltas) (Py.len deltas) ;;
                Ok (Some j))
          else Ok None) ;;
       Ok (mk_recent_stats recent_loss_pct recent_avg_ping recent_count
             recent_lost recent_min_ping recent_max_ping jitter))%result.

(** ** The measurement state: class [MonitorState] *)

(** The error messages [traceroute_worker] can store; each constructor
    stands for one of its format strings, with the formatted value. *)
Inductive trace_error : Type :=
| Error_starting_traceroute (repr : string)
| traceroute_timed_out_after_300_seconds
| traceroute_exited_with_code (retcode : Z)
| Error_running_traceroute (repr : string).

(** Second argument of [tr("TRACE_FINAL_SUMMARY", ...)]: which of the two
    timeout templates is used, with the hop numbers joined into it. *)
Inductive timeout_info : Type :=
| TRACE_TIMEOUT_INFO_NONE
| TRACE_TIMEOUT_INFO_SOME (hops : list Z).

(** The keyword arguments handed to [tr("TRACE_FINAL_SUMMARY", ...)].
    The text itself comes from the language table [lang_XX.txt], which is
    data outside the module; the summary is kept as these arguments. *)
Record trace_summary : Type := mk_trace_summary {
  summary_hops : Z;
  summary_max_ms : Q;
  summary_timeout_info : timeout_info
}.

(** All attributes of [MonitorState] except the lock. *)
Record MonitorState : Type := mk_MonitorState {
  target_host : string;
  running : bool;
  monitoring : bool;
  show_help : bool;
  show_traceroute_full : bool;
  traceroute_scroll : Z;
  show_controls : bool;
  total_sent : Z;
  total_recv : Z;
  last_ping_ms : option Q;
  total_success : Z;
  success_rtt_sum : Q;
  min_rtt_all : option Q;
  max_rtt_all : option Q;
  last_success_rtt_all : option Q;
  jitter_sum_all : Q;
  jitter_count_all : Z;
  ping_history : list (option Q);
  loss_history : list Q;
  window_size : Z;
  traceroute_lines : list string;
  traceroute_running : bool;
  last_traceroute_error : option trace_error;
  traceroute_summary : option trace_summary;
  last_traceroute_ts : option Q
}.

(** Attribute assignment [state.f = v], one function per attribute that
    the module assigns after construction. *)

Definition set_running (v : bool) (state : MonitorState) : MonitorState :=
  mk_MonitorState (target_host state) v (monitoring state) (show_help state)
    (show_traceroute_full state) (traceroute_scroll state)
    (show_controls state) (total_sent state) (total_recv state)
    (last_ping_ms state) (total_success state) (success_rtt_sum state)
    (min_rtt_all state) (max_rtt_all state) (last_success_rtt_all state)
    (jitter_sum_all state) (jitter_count_all state) (ping_history state)
    (loss_history state) (window_size state) (traceroute_lines state)
    (traceroute_running state) (last_traceroute_error state)
    (traceroute_summary state) (last_traceroute_ts state).

Definition set_monitoring (v : bool) (state : MonitorState) : MonitorState :=
  mk_MonitorState (target_host state) (running state) v (show_help state)
    (show_traceroute_full state) (traceroute_scroll state)
    (show_controls state) (total_sent state) (total_recv state)
    (last_ping_ms state) (total_success state) (success_rtt_sum state)
    (min_rtt_all state) (max_rtt_all state) (last_success_rtt_all state)
    (jitter_sum_all state) (jitter_count_all state) (ping_history state)
    (loss_history state) (window_size state) (traceroute_lines state)
    (traceroute_running state) (last_traceroute_error state)
    (traceroute_summary state) (last_traceroute_ts state).

Definition set_show_help (v : bool) (state : MonitorState) : MonitorState :=
  mk_MonitorState (target_host state) (running state) (monitoring state) v
    (show_traceroute_full state) (traceroute_scroll state)
    (show_controls state) (total_sent state) (total_recv state)
    (last_ping_ms state) (total_success state) (success_rtt_sum state)
    (min_rtt_all state) (max_rtt_all state) (last_success_rtt_all state)
    (jitter_sum_all state) (jitter_count_all state) (ping_history state)
    (loss_history state) (window_size state) (traceroute_lines state)
    (traceroute_running state) (last_traceroute_error state)
    (traceroute_summary state) (last_traceroute_ts state).

Definition set_show_traceroute_full (v : bool) (state : MonitorState) : MonitorState :=
  mk_MonitorState (target_host state) (running state) (monitoring state)
    (show_help state) v (traceroute_scroll state) (show_controls state)
    (total_sent state) (total_recv state) (last_ping_ms state)
    (total_success state) (success_rtt_sum state) (min_rtt_all state)
    (max_rtt_all state) (last_success_rtt_all state) (jitter_sum_all state)
    (jitter_count_all state) (ping_history state) (loss_history state)
    (window_size state) (traceroute_lines state) (traceroute_running state)
    (last_traceroute_error state) (traceroute_summary state)
    (last_traceroute_ts state).

Definition set_traceroute_scroll (v : Z) (state : MonitorState) : MonitorState :=
  mk_MonitorState (target_host state) (running state) (monitoring state)
    (show_help state) (show_traceroute_full state) v (show_controls state)
    (total_sent state) (total_recv state) (last_ping_ms state)
    (total_success state) (success_rtt_sum state) (min_rtt_all state)
    (max_rtt_all state) (last_success_rtt_all state) (jitter_sum_all state)
    (jitter_count_all state) (ping_history state) (loss_history state)
    (window_size state) (traceroute_lines state) (traceroute_running state)
    (last_traceroute_error state) (traceroute_summary state)
    (last_traceroute_ts state).

Definition set_show_controls (v : bool) (state : MonitorState) : MonitorState :=
  mk_MonitorState (target_host state) (running state) (monitoring state)
    (show_help state) (show_traceroute_full state) (traceroute_scroll state)
    v (total_sent state) (total_recv state) (last_ping_ms state)
    (total_success state) (success_rtt_sum state) (min_rtt_all state)
    (max_rtt_all state) (last_success_rtt_all state) (jitter_sum_all state)
    (jitter_count_all state) (ping_history state) (loss_history state)
    (window_size state) (traceroute_lines state) (traceroute_running state)
    (last_traceroute_error state) (traceroute_summary state)
    (last_traceroute_ts state).

Definition set_total_sent (v : Z) (state : MonitorState) : MonitorState :=
  mk_MonitorState (target_host state) (running state) (monitoring state)
    (show_help state) (show_traceroute_full state) (traceroute_scroll state)
    (show_controls state) v (total_recv state) (last_ping_ms state)
    (total_success state) (success_rtt_sum state) (min_rtt_all state)
    (max_rtt_all state) (last_success_rtt_all state) (jitter_sum_all state)
    (jitter_count_all state) (ping_history state) (loss_history state)
    (window_size state) (traceroute_lines state) (traceroute_running state)
    (last_traceroute_error state) (traceroute_summary state)
    (last_traceroute_ts state).

Definition set_total_recv (v : Z) (state : MonitorState) : MonitorState :=
  mk_MonitorState (target_host state) (running state) (monitoring state)
    (show_help state) (show_traceroute_full state) (traceroute_scroll state)
    (show_controls state) (total_sent state) v (last_ping_ms state)
    (total_success state) (success_rtt_sum state) (min_rtt_all state)
    (max_rtt_all state) (last_success_rtt_all state) (jitter_sum_all state)
    (jitter_count_all state) (ping_history state) (loss_history state)
    (window_size state) (traceroute_lines state) (traceroute_running state)
    (last_traceroute_error state) (traceroute_summary state)
    (last_traceroute_ts state).

Definition set_last_ping_ms (v : option Q) (state : MonitorState) : MonitorState :=
  mk_MonitorState (target_host state) (running state) (monitoring state)
    (show_help state) (show_traceroute_full state) (traceroute_scroll state)
    (show_controls state) (total_sent state) (total_recv state) v
    (total_success state) (success_rtt_sum state) (min_rtt_all state)
    (max_rtt_all state) (last_success_rtt_all state) (jitter_sum_all state)
    (jitter_count_all state) (ping_history state) (loss_history state)
    (window_size state) (traceroute_lines state) (traceroute_running state)
    (last_traceroute_error state) (traceroute_summary state)
    (last_traceroute_ts state).

Definition set_total_success (v : Z) (state : MonitorState) : MonitorState :=
  mk_MonitorState (target_host state) (running state) (monitoring state)
    (show_help state) (show_traceroute_full state) (traceroute_scroll state)
    (show_controls state) (total_sent state) (total_recv state)
    (last_ping_ms state) v (success_rtt_sum state) (min_rtt_all state)
    (max_rtt_all state) (last_success_rtt_all state) (jitter_sum_all state)
    (jitter_count_all state) (ping_history state) (loss_history state)
    (window_size state) (traceroute_lines state) (traceroute_running state)
    (last_traceroute_error state) (traceroute_summary state)
    (last_traceroute_ts state).

Definition set_success_rtt_sum (v : Q) (state : MonitorState) : MonitorState :=
  mk_MonitorState (target_host state) (running state) (monitoring state)
    (show_help state) (show_traceroute_full state) (traceroute_scroll state)
    (show_controls state) (total_sent state) (total_recv state)
    (last_ping_ms state) (total_success state) v (min_rtt_all state)
    (max_rtt_all state) (last_success_rtt_all state) (jitter_sum_all state)
    (jitter_count_all state) (ping_history state) (loss_history state)
    (window_size state) (traceroute_lines state) (traceroute_running state)
    (last_traceroute_error state) (traceroute_summary state)
    (last_traceroute_ts state).

Definition set_min_rtt_all (v : option Q) (state : MonitorState) : MonitorState :=
  mk_MonitorState (target_host state) (running state) (monitoring state)
    (show_help state) (show_traceroute_full state) (traceroute_scroll state)
    (show_controls state) (total_sent state) (total_recv state)
    (last_ping_ms state) (total_success state) (success_rtt_sum state) v
    (max_rtt_all state) (last_success_rtt_all state) (jitter_sum_all state)
    (jitter_count_all state) (ping_history state) (loss_history state)
    (window_size state) (traceroute_lines state) (traceroute_running state)
    (last_traceroute_error state) (traceroute_summary state)
    (last_traceroute_ts state).

Definition set_max_rtt_all (v : option Q) (state : MonitorState) : MonitorState :=
  mk_MonitorState (target_host state) (running state) (monitoring state)
    (show_help state) (show_traceroute_full state) (traceroute_scroll state)
    (show_controls state) (total_sent state) (total_recv state)
    (last_ping_ms state) (total_success state) (success_rtt_sum state)
    (min_rtt_all state) v (last_success_rtt_all state)
    (jitter_sum_all state) (jitter_count_all state) (ping_history state)
    (loss_history state) (window_size state) (traceroute_lines state)
    (traceroute_running state) (last_traceroute_error state)
    (traceroute_summary state) (last_traceroute_ts state).

Definition set_last_success_rtt_all (v : option Q) (state : MonitorState) : MonitorState :=
  mk_MonitorState (target_host state) (running state) (monitoring state)
    (show_help state) (show_traceroute_full state) (traceroute_scroll state)
    (show_controls state) (total_sent state) (total_recv state)
    (last_ping_ms state) (total_success state) (success_rtt_sum state)
    (min_rtt_all state) (max_rtt_all state) v (jitter_sum_all state)
    (jitter_count_all state) (ping_history state) (loss_history state)
    (window_size state) (traceroute_lines state) (traceroute_running state)
    (last_traceroute_error state) (traceroute_summary state)
    (last_traceroute_ts state).

Definition set_jitter_sum_all (v : Q) (state : MonitorState) : MonitorState :=
  mk_MonitorState (target_host state) (running state) (monitoring state)
    (show_help state) (show_traceroute_full state) (traceroute_scroll state)
    (show_controls state) (total_sent state) (total_recv state)
    (last_ping_ms state) (total_success state) (success_rtt_sum state)
    (min_rtt_all state) (max_rtt_all state) (last_success_rtt_all state) v
    (jitter_count_all state) (ping_history state) (loss_history state)
    (window_size state) (traceroute_lines state) (traceroute_running state)
    (last_traceroute_error state) (traceroute_summary state)
    (last_traceroute_ts state).

Definition set_jitter_count_all (v : Z) (state : MonitorState) : MonitorState :=
  mk_MonitorState (target_host state) (running state) (monitoring state)
    (show_help state) (show_traceroute_full state) (traceroute_scroll state)
    (show_controls state) (total_sent state) (total_recv state)
    (last_ping_ms state) (total_success state) (success_rtt_sum state)
    (min_rtt_all state) (max_rtt_all state) (last_success_rtt_all state)
    (jitter_sum_all state) v (ping_history state) (loss_history state)
    (window_size state) (traceroute_lines state) (traceroute_running state)
    (last_traceroute_error state) (traceroute_summary state)
    (last_traceroute_ts state).

Definition set_ping_history (v : list (option Q)) (state : MonitorState) : MonitorState :=
  mk_MonitorState (target_host state) (running state) (monitoring state)
    (show_help state) (show_traceroute_full state) (traceroute_scroll state)
    (show_controls state) (total_sent state) (total_recv state)
    (last_ping_ms state) (total_success state) (success_rtt_sum state)
    (min_rtt_all state) (max_rtt_all state) (last_success_rtt_all state)
    (jitter_sum_all state) (jitter_count_all state) v (loss_history state)
    (window_size state) (traceroute_lines state) (traceroute_running state)
    (last_traceroute_error state) (traceroute_summary state)
    (last_traceroute_ts state).

Definition set_loss_history (v : list Q) (state : MonitorState) : MonitorState :=
  mk_MonitorState (target_host state) (running state) (monitoring state)
    (show_help state) (show_traceroute_full state) (traceroute_scroll state)
    (show_controls state) (total_sent state) (total_recv state)
    (last_ping_ms state) (total_success state) (success_rtt_sum state)
    (min_rtt_all state) (max_rtt_all state) (last_success_rtt_all state)
    (jitter_sum_all state) (jitter_count_all state) (ping_history state) v
    (window_size state) (traceroute_lines state) (traceroute_running state)
    (last_traceroute_error state) (traceroute_summary state)
    (last_traceroute_ts state).

Definition set_window_size (v : Z) (state : MonitorState) : MonitorState :=
  mk_MonitorState (target_host state) (running state) (monitoring state)
    (show_help state) (show_traceroute_full state) (traceroute_scroll state)
    (show_controls state) (total_sent state) (total_recv state)
    (last_ping_ms state) (total_success state) (success_rtt_sum state)
    (min_rtt_all state) (max_rtt_all state) (last_success_rtt_all state)
    (jitter_sum_all state) (jitter_count_all state) (ping_history state)
    (loss_history state) v (traceroute_lines state)
    (traceroute_running state) (last_traceroute_error state)
    (traceroute_summary state) (last_traceroute_ts state).

Definition set_traceroute_lines (v : list string) (state : MonitorState) : MonitorState :=
  mk_MonitorState (target_host state) (running state) (monitoring state)
    (show_help state) (show_traceroute_full state) (traceroute_scroll state)
    (show_controls state) (total_sent state) (total_recv state)
    (last_ping_ms state) (total_success state) (success_rtt_sum state)
    (min_rtt_all state) (max_rtt_all state) (last_success_rtt_all state)
    (jitter_sum_all state) (jitter_count_all state) (ping_history state)
    (loss_history state) (window_size state) v (traceroute_running state)
    (last_traceroute_error state) (traceroute_summary state)
    (last_traceroute_ts state).

Definition set_traceroute_running (v : bool) (state : MonitorState) : MonitorState :=
  mk_MonitorState (target_host state) (running state) (monitoring state)
    (show_help state) (show_traceroute_full state) (traceroute_scroll state)
    (show_controls state) (total_sent state) (total_recv state)
    (last_ping_ms state) (total_success state) (success_rtt_sum state)
    (min_rtt_all state) (max_rtt_all state) (last_success_rtt_all state)
    (jitter_sum_all state) (jitter_count_all state) (ping_history state)
    (loss_history state) (window_size state) (traceroute_lines state) v
    (last_traceroute_error state) (traceroute_summary state)
    (last_traceroute_ts state).

Definition set_last_traceroute_error (v : option trace_error) (state : MonitorState) : MonitorState :=
  mk_MonitorState (target_host state) (running state) (monitoring state)
    (show_help state) (show_traceroute_full state) (traceroute_scroll state)
    (show_controls state) (total_sent state) (total_recv state)
    (last_ping_ms state) (total_success state) (success_rtt_sum state)
    (min_rtt_all state) (max_rtt_all state) (last_success_rtt_all state)
    (jitter_sum_all state) (jitter_count_all state) (ping_history state)
    (loss_history state) (window_size state) (traceroute_lines state)
    (traceroute_running state) v (traceroute_summary state)
    (last_traceroute_ts state).

Definition set_traceroute_summary (v : option trace_summary) (state : MonitorState) : MonitorState :=
  mk_MonitorState (target_host state) (running state) (monitoring state)
    (show_help state) (show_traceroute_full state) (traceroute_scroll state)
    (show_controls state) (total_sent state) (total_recv state)
    (last_ping_ms state) (total_success state) (success_rtt_sum state)
    (min_rtt_all state) (max_rtt_all state) (last_success_rtt_all state)
    (jitter_sum_all state) (jitter_count_all state) (ping_history state)
    (loss_history state) (window_size state) (traceroute_lines state)
    (traceroute_running state) (last_traceroute_error state) v
    (last_traceroute_ts state).

Definition set_last_traceroute_ts (v : option Q) (state : MonitorState) : MonitorState :=
  mk_MonitorState (target_host state) (running state) (monitoring state)
    (show_help state) (show_traceroute_full state) (traceroute_scroll state)
    (show_controls state) (total_sent state) (total_recv state)
    (last_ping_ms state) (total_success state) (success_rtt_sum state)
    (min_rtt_all state) (max_rtt_all state) (last_success_rtt_all state)
    (jitter_sum_all state) (jitter_count_all state) (ping_history state)
    (loss_history state) (window_size state) (traceroute_lines state)
    (traceroute_running state) (last_traceroute_error state)
    (traceroute_summary state) v.

(** [MonitorState.__init__] *)
Definition MonitorState_init (target_host : string) : MonitorState :=
  mk_MonitorState target_host true true false false 0 false
    0 0 None
    0 0%Q None None None 0%Q 0
    [] [] DEFAULT_WINDOW_SIZE
    [] false None None None.

(** [collections.deque(maxlen=...).append]: when the deque is full the
    leftmost item is discarded; with [maxlen = 0] nothing is stored. *)
Definition deque_append {A : Type} (maxlen : Z) (d : list A) (x : A) : list A :=
  if maxlen =? 0 then d
  else if Py.len d >=? maxlen then tl d ++ [x]
  else d ++ [x].

(** ** Text scanning: the three regular expressions of the module

    Strings are sequences of ASCII characters.  In each pattern the
    pieces are runs of disjoint character classes followed by a literal,
    so the greedy match is the only candidate: giving back a character
    of a run can never make the rest of the pattern match. *)

Open Scope string_scope.

(** [\s] on ASCII text. *)
Definition is_space (c : ascii) : bool :=
  let n := nat_of_ascii c in
  ((9 <=? n) && (n <=? 13) || (28 <=? n) && (n <=? 32))%nat.

(** [\d] on ASCII text. *)
Definition is_digit (c : ascii) : bool :=
  let n := nat_of_ascii c in
  ((48 <=? n) && (n <=? 57))%nat.

(** [[\d.]] *)
Definition is_num_char (c : ascii) : bool :=
  is_digit c || Ascii.eqb c ".".

(** Longest prefix whose characters satisfy [p], and what follows it. *)
Fixpoint span (p : ascii -> bool) (s : string) : string * string :=
  match s with
  | EmptyString => (EmptyString, EmptyString)
  | String c s' =>
      if p c then let '(a, b) := span p s' in (String c a, b)
      else (EmptyString, s)
  end.

(** [c in s] for a one-character string [c]. *)
Fixpoint contains_char (c : ascii) (s : string) : bool :=
  match s with
  | EmptyString => false
  | String d s' => Ascii.eqb c d || contains_char c s'
  end.

(** [needle in hay] *)
Fixpoint contains (needle hay : string) : bool :=
  String.prefix needle hay ||
  match hay with
  | EmptyString => false
  | String _ hay' => contains needle hay'
  end.

Definition lstrip (s : string) : string := snd (span is_space s).

Fixpoint rstrip_with (p : ascii -> bool) (s : string) : string :=
  match s with
  | EmptyString => EmptyString
  | String c s' =>
      match rstrip_with p s' with
      | EmptyString => if p c then EmptyString else String c EmptyString
      | r => String c r
      end
  end.

(** [s.strip()] *)
Definition strip (s : string) : string := rstrip_with is_space (lstrip s).

(** [s.rstrip("\n")] *)
Definition rstrip_newline (s : string) : string :=
  rstrip_with (Ascii.eqb (ascii_of_nat 10)) s.

(** [s.split(c, 1)]: the text before the first occurrence of [c] and the
    text after it; all of [s] and nothing when [c] does not occur. *)
Fixpoint split_once (c : ascii) (s : string) : string * string :=
  match s with
  | EmptyString => (EmptyString, EmptyString)
  | String d s' =>
      if Ascii.eqb c d then (EmptyString, s')
      else let '(a, b) := split_once c s' in (String d a, b)
  end.

(** [int(s)] for a string of decimal digits. *)
Definition py_int (s : string) : Z :=
  fold_left (fun acc c => 10 * acc + (Z.of_nat (nat_of_ascii c) - 48))
            (list_ascii_of_string s) 0.

(** [float(s)] for a string matched by [[\d.]+]: digits with at most one
    point and at least one digit; anything else raises [ValueError]. *)
Definition py_float (s : string) : result Q :=
  let '(ip, r) := span is_digit s in
  match r with
  | EmptyString =>
      if String.eqb ip "" then Raise ValueError else Ok (inject_Z (py_int ip))
  | String c fp =>
      let '(fd, r') := span is_digit fp in
      if negb (Ascii.eqb c ".") || negb (String.eqb r' "")
         || (String.eqb ip "" && String.eqb fd "")
      then Raise ValueError
      else Ok (inject_Z (py_int ip)
               + inject_Z (py_int fd) / inject_Z (10 ^ Z.of_nat (String.length fd)))%Q
  end.

(** [hop_re = ^\s*(\d+)\s+], used with [match]: returns group 1 and the
    text from [m.end()] on. *)
Definition hop_re_match (line : string) : option (string * string) :=
  let '(_, r0) := span is_space line in
  let '(digits, r1) := span is_digit r0 in
  let '(ws, r2) := span is_space r1 in
  if String.eqb digits "" || String.eqb ws "" then None
  else Some (digits, r2).

(** [([\d.]+)\s*ms] anchored at the start of [s]: group 1 and the length
    of the whole match. *)
Definition ms_re_match_at (s : string) : option (string * nat) :=
  let '(num, r1) := span is_num_char s in
  let '(ws, r2) := span is_space r1 in
  if String.eqb num "" then None
  else if String.prefix "ms" r2
       then Some (num, (String.length num + String.length ws + 2)%nat)
       else None.

(** [ms_re.finditer(s)], as the list of group 1 of the successive
    non-overlapping matches; [skip] counts the characters of the current
    match that are still to be passed over. *)
Fixpoint ms_re_finditer_from (skip : nat) (s : string) : list string :=
  match s with
  | EmptyString => []
  | String _ s' =>
      match skip with
      | S k => ms_re_finditer_from k s'
      | O =>
          match ms_re_match_at s with
          | Some (num, n) => num :: ms_re_finditer_from (Nat.pred n) s'
          | None => ms_re_finditer_from O s'
          end
      end
  end.

Definition ms_re_finditer (s : string) : list string :=
  ms_re_finditer_from O s.

(** [time[=<]([\d.]+)\s*ms] anchored at the start of [s]: group 1. *)
Definition time_re_match_at (s : string) : option string :=
  if String.prefix "time" s then
    match String.substring 4 (String.length s - 4) s with
    | String c r =>
        if Ascii.eqb c "=" || Ascii.eqb c "<"
        then option_map fst (ms_re_match_at r)
        else None
    | EmptyString => None
    end
  else None.

(** [re.search(r"time[=<]([\d.]+)\s*ms", s)]: group 1 of the leftmost
    match. *)
Fixpoint time_re_search (s : string) : option string :=
  match time_re_match_at s with
  | Some g => Some g
  | None =>
      match s with
      | EmptyString => None
      | String _ s' => time_re_search s'
      end
  end.

(** ** The path-trace parser *)

(** State of the loop of [build_traceroute_summary]. *)
Record summary_acc : Type := mk_summary_acc {
  hop_numbers : list Z;
  timeout_hops : list Z;
  max_ms : option Q
}.

(** The inner loop [for ms_match in ms_re.finditer(line)]: a token that
    [float] rejects is skipped. *)
Definition summary_max_step (max_ms : option Q) (token : string) : option Q :=
  match py_float token with
  | Raise _ => max_ms
  | Ok val =>
      match max_ms with
      | None => Some val
      | Some m => if Py.Qlt_bool m val then Some val else max_ms
      end
  end.

(** One iteration of [for line in lines[1:]]. *)
Definition summary_step (acc : summary_acc) (line : string) : summary_acc :=
  match hop_re_match line with
  | None => acc
  | Some (g, _) =>
      let hop := py_int g in
      mk_summary_acc
        (hop_numbers acc ++ [hop])
        (if contains_char "*" line then timeout_hops acc ++ [hop]
         else timeout_hops acc)
        (fold_left summary_max_step (ms_re_finditer line) (max_ms acc))
  end.

Definition build_traceroute_summary (lines : list string)
  : result (option trace_summary) :=
  match lines with
  | [] => Ok None
  | _ =>
      let acc := fold_left summary_step (Py.slice_from lines 1)
                           (mk_summary_acc [] [] None) in
      match hop_numbers acc with
      | [] => Ok None
      | _ =>
          (hops <- Py.maxZ (hop_numbers acc) ;;
           let max_ms := match max_ms acc with None => 0%Q | Some m => m end in
           let timeout_info :=
             match timeout_hops acc with
             | [] => TRACE_TIMEOUT_INFO_NONE
             | hs => TRACE_TIMEOUT_INFO_SOME hs
             end in
           Ok (Some (mk_trace_summary hops max_ms timeout_info)))%result
      end
  end.

(** What one hop line of [build_traceroute_table] is parsed into before
    it is formatted: hop number, host label, and RTT samples. *)
Record hop_record : Type := mk_hop_record {
  hop : Z;
  host_ip : string;
  rtts : list Q
}.

(** [rtts.append(val)] for every token that [float] accepts. *)
Fixpoint rtts_of_tokens (tokens : list string) : list Q :=
  match tokens with
  | [] => []
  | t :: r =>
      match py_float t with
      | Ok val => val :: rtts_of_tokens r
      | Raise _ => rtts_of_tokens r
      end
  end.

(** Body of the loop of [build_traceroute_table] up to the list [rtts]. *)
Definition parse_hop_line (line : string) : option hop_record :=
  match hop_re_match line with
  | None => None
  | Some (g, after) =>
      let hop := py_int g in
      let rest := strip after in
      let '(host, ip) :=
        if contains_char "(" rest && contains_char ")" rest then
          let '(before, after) := split_once "(" rest in
          (match strip before with "" => "?" | h => h end,
           strip (fst (split_once ")" after)))
        else
          (match fst (span (fun c => negb (is_space c)) rest) with
           | "" => "?"
           | h => h
           end, "") in
      let host_ip :=
        if negb (String.eqb ip "") && negb (contains ip host)
        then host ++ " (" ++ ip ++ ")"
        else host in
      Some (mk_hop_record hop host_ip (rtts_of_tokens (ms_re_finditer line)))
  end.

(** The last column of a table row. *)
Inductive rtt_text : Type :=
| min_avg_max (mn avg mx : Q)
| timeout.

(** A row of the table: the fixed header, or the columns of one hop (the
    padding to fixed widths is left to the renderer). *)
Inductive table_row : Type :=
| header_row
| hop_row (hop : Z) (host_ip : string) (text : rtt_text).

Definition format_hop (h : hop_record) : result table_row :=
  match rtts h with
  | [] => Ok (hop_row (hop h) (host_ip h) timeout)
  | _ =>
      (mn <- Py.min (rtts h) ;;
       mx <- Py.max (rtts h) ;;
       avg <- Py.truediv (Py.sum (rtts h)) (inject_Z (Py.len (rtts h))) ;;
       Ok (hop_row (hop h) (host_ip h) (min_avg_max mn avg mx)))%result
  end.

Fixpoint table_rows (lines : list string) : result (list table_row) :=
  match lines with
  | [] => Ok []
  | line :: r =>
      match parse_hop_line line with
      | None => table_rows r
      | Some h =>
          (row <- format_hop h ;;
           rows <- table_rows r ;;
           Ok (row :: rows))%result
      end
  end.

Definition build_traceroute_table (lines : list string)
  : result (list table_row) :=
  match lines with
  | [] => Ok []
  | _ => (rows <- table_rows lines ;; Ok (header_row :: rows))%result
  end.

(** The hop records behind the rows of the table, in line order. *)
Fixpoint parse_hops (lines : list string) : list hop_record :=
  match lines with
  | [] => []
  | line :: r =>
      match parse_hop_line line with
      | None => parse_hops r
      | Some h => h :: parse_hops r
      end
  end.

(** ** The ping sampler *)

Open Scope Z_scope.

(** What [subprocess.run] hands back to [run_ping]: an exception
    (including the 5 s timeout), or an exit status with the captured
    standard output. *)
Inductive ping_process : Type :=
| ping_raised
| ping_exited (returncode : Z) (stdout : string).

(** [run_ping], as a function of what the ping process did: the pair
    [(success, rtt_ms)]. *)
Definition run_ping (proc : ping_process) : bool * option Q :=
  match proc with
  | ping_raised => (false, None)
  | ping_exited returncode stdout =>
      if negb (returncode =? 0) then (false, None)
      else
        match time_re_search stdout with
        | None => (true, None)
        | Some g =>
            match py_float g with
            | Ok rtt => (true, Some rtt)
            | Raise _ => (true, None)
            end
        end
  end.

(** The three outcomes of a probe, as pairs [(success, rtt)]. *)
Definition Success (rtt : Q) : bool * option Q := (true, Some rtt).
Definition SuccessNoRtt : bool * option Q := (true, None).
Definition Failure : bool * option Q := (false, None).

(** The second [with state.lock:] block of [ping_worker]: the commit of
    one probe result [(success, rtt)]. *)
Definition ping_commit (success : bool) (rtt : option Q)
    (state : MonitorState) : MonitorState :=
  let state := set_total_sent (total_sent state + 1) state in
  let state :=
    if success then
      let state := set_total_recv (total_recv state + 1) state in
      let state := set_last_ping_ms rtt state in
      match rtt with
      | Some rtt =>
          let state :=
            if total_success state =? 0 then
              let state := set_min_rtt_all (Some rtt) state in
              set_max_rtt_all (Some rtt) state
            else
              let state :=
                match min_rtt_all state with
                | None => set_min_rtt_all (Some rtt) state
                | Some m =>
                    if Py.Qlt_bool rtt m then set_min_rtt_all (Some rtt) state
                    else state
                end in
              match max_rtt_all state with
              | None => set_max_rtt_all (Some rtt) state
              | Some m =>
                  if Py.Qlt_bool m rtt then set_max_rtt_all (Some rtt) state
                  else state
              end in
          let state :=
            match last_success_rtt_all state with
            | Some last =>
                let delta := Qabs (rtt - last) in
                let state :=
                  set_jitter_sum_all (jitter_sum_all state + delta)%Q state in
                set_jitter_count_all (jitter_count_all state + 1) state
            | None => state
            end in
          let state := set_last_success_rtt_all (Some rtt) state in
          let state :=
            set_success_rtt_sum (success_rtt_sum state + rtt)%Q state in
          set_total_success (total_success state + 1) state
      | None => state
      end
    else set_last_ping_ms None state in
  let sent := total_sent state in
  let recv := total_recv state in
  let overall_loss_pct :=
    if sent =? 0 then 0%Q
    else ((1 - inject_Z recv / inject_Z sent) * 100)%Q in
  let state :=
    set_ping_history
      (deque_append PING_HISTORY_LENGTH (ping_history state)
                    (if success then rtt else None)) state in
  set_loss_history
    (deque_append LOSS_HISTORY_LENGTH (loss_history state) overall_loss_pct)
    state.

(** One cycle of [ping_worker] on an active sampler: probe, then commit. *)
Definition ping_cycle (proc : ping_process) (state : MonitorState)
  : MonitorState :=
  let '(success, rtt) := run_ping proc in
  ping_commit success rtt state.

(** ** The trace sampler *)

(** The first [with state.lock:] block of [traceroute_worker] once the
    guard has passed. *)
Definition traceroute_begin (now : Q) (state : MonitorState) : MonitorState :=
  let state := set_traceroute_running true state in
  let state := set_last_traceroute_error None state in
  let state := set_traceroute_lines [] state in
  let state := set_traceroute_summary None state in
  set_last_traceroute_ts (Some now) state.

(** The block of the [except] branch around [subprocess.Popen]. *)
Definition traceroute_launch_failed (repr : string) (state : MonitorState)
  : MonitorState :=
  let state := set_traceroute_lines [] state in
  let state :=
    set_last_traceroute_error (Some (Error_starting_traceroute repr)) state in
  set_traceroute_running false state.

(** The block inside the streaming loop. *)
Definition traceroute_publish (lines : list string) (state : MonitorState)
  : MonitorState :=
  set_traceroute_lines lines state.

(** The final block. *)
Definition traceroute_commit (lines : list string)
    (error_msg : option trace_error) (summary : option trace_summary)
    (now : Q) (state : MonitorState) : MonitorState :=
  let state := set_traceroute_lines lines state in
  let state := set_last_traceroute_error error_msg state in
  let state := set_traceroute_running false state in
  let state := set_traceroute_summary summary state in
  set_last_traceroute_ts (Some now) state.

(** What the environment does during one call of [traceroute_worker]:
    the clock at entry; whether [Popen] raises (with the exception's
    repr); the clock after launch; the lines the process prints, each
    with the clock read after it is published; an exception raised by
    the stream once these lines are read, if any; the result of
    [proc.wait] ([None] when it raises); the clock at the end. *)
Record trace_run : Type := mk_trace_run {
  entry_time : Q;
  popen_raises : option string;
  start_time : Q;
  stdout_lines : list (string * Q);
  stream_raises : option string;
  wait_retcode : option Z;
  end_time : Q
}.

(** The loop [for line in proc.stdout]: returns the lines collected, the
    state after the last publication, and whether the 300 s ceiling
    stopped the loop. *)
Fixpoint traceroute_stream (start_time : Q) (output : list (string * Q))
    (lines : list string) (state : MonitorState)
  : list string * MonitorState * bool :=
  match output with
  | [] => (lines, state, false)
  | (line, now) :: output' =>
      let line := rstrip_newline line in
      let lines := (lines ++ [line])%list in
      let state := traceroute_publish lines state in
      if Py.Qlt_bool 300 (now - start_time) then (lines, state, true)
      else traceroute_stream start_time output' lines state
  end.

(** [traceroute_worker], run without interleaving of the other threads. *)
Definition traceroute_worker (run : trace_run) (state : MonitorState)
  : result MonitorState :=
  if traceroute_running state then Ok state
  else
    let state := traceroute_begin (entry_time run) state in
    match popen_raises run with
    | Some repr => Ok (traceroute_launch_failed repr state)
    | None =>
        let '(lines, state, timed_out) :=
          traceroute_stream (start_time run) (stdout_lines run) [] state in
        let error_msg :=
          if timed_out then
            Some traceroute_timed_out_after_300_seconds
          else
            match stream_raises run with
            | Some repr => Some (Error_running_traceroute repr)
            | None =>
                match wait_retcode run with
                | Some retcode =>
                    if retcode =? 0 then None
                    else Some (traceroute_exited_with_code retcode)
                | None => None
                end
            end in
        (summary <-
           match error_msg with
           | None => build_traceroute_summary lines
           | Some _ => Ok None
           end ;;
         Ok (traceroute_commit lines error_msg summary (end_time run) state))%result
    end.

(** ** Commands of the main loop *)

Inductive key : Type :=
| key_q | key_p | key_r | key_t | key_h | key_f
| key_up | key_down | key_l | key_k | key_plus | key_minus.

(** The state update of each branch of the key dispatch in [main].
    [key_t] only starts a worker thread and [key_l] changes the language,
    neither assigns an attribute of the state here. *)
Definition handle_key (ch : key) (state : MonitorState) : MonitorState :=
  match ch with
  | key_q => set_running false state
  | key_p => set_monitoring false state
  | key_r => set_monitoring true state
  | key_t => state
  | key_h => set_show_help (negb (show_help state)) state
  | key_f =>
      let state :=
        set_show_traceroute_full (negb (show_traceroute_full state)) state in
      set_traceroute_scroll 0 state
  | key_up => set_traceroute_scroll (Z.max 0 (traceroute_scroll state - 1)) state
  | key_down => set_traceroute_scroll (traceroute_scroll state + 1) state
  | key_l => state
  | key_k => set_show_controls (negb (show_controls state)) state
  | key_plus =>
      let new_size := window_size state + 10 in
      set_window_size (Z.min new_size PING_HISTORY_LENGTH) state
  | key_minus =>
      let new_size := window_size state - 10 in
      let new_size :=
        if new_size <? MIN_WINDOW_SIZE then MIN_WINDOW_SIZE else new_size in
      set_window_size new_size state
  end.

(** Every atomic update of the state that the module performs. *)
Inductive operation : Type :=
| op_ping (success : bool) (rtt : option Q)
| op_key (ch : key)
| op_traceroute_begin (now : Q)
| op_traceroute_launch_failed (repr : string)
| op_traceroute_publish (lines : list string)
| op_traceroute_commit (lines : list string) (error_msg : option trace_error)
    (summary : option trace_summary) (now : Q).

Definition apply_operation (o : operation) (state : MonitorState)
  : MonitorState :=
  match o with
  | op_ping success rtt => ping_commit success rtt state
  | op_key ch => handle_key ch state
  | op_traceroute_begin now => traceroute_begin now state
  | op_traceroute_launch_failed repr => traceroute_launch_failed repr state
  | op_traceroute_publish lines => traceroute_publish lines state
  | op_traceroute_commit lines error_msg summary now =>
      traceroute_commit lines error_msg summary now state
  end.

(** The state after a sequence of operations, oldest first. *)
Definition run_operations (ops : list operation) (state : MonitorState)
  : MonitorState :=
  fold_left (fun st o => apply_operation o st) ops state.

(** ** Derived views of [draw_ui] *)

(** The key passed to [tr] for the quality label. *)
Inductive quality : Type :=
| QUALITY_UNKNOWN
| QUALITY_EXCELLENT
| QUALITY_GOOD
| QUALITY_FAIR
| QUALITY_POOR.

(** "Derive quality label from recent stats". *)
Definition quality_label (s : recent_stats) (window_size : Z) : quality :=
  match recent_count s >=? Z.max 20 (window_size / 2), recent_avg_ping_ms s with
  | true, Some recent_avg_ping =>
      if (recent_loss_pct s <? 1)%float
         && (recent_avg_ping <? 40)%float
         && match jitter_ms s with
            | None => true
            | Some j => (j <? 5)%float
            end
      then QUALITY_EXCELLENT
      else if (recent_loss_pct s <? 2)%float
              && (recent_avg_ping <? 80)%float
      then QUALITY_GOOD
      else if (recent_loss_pct s <? 5)%float
              && (recent_avg_ping <? 150)%float
      then QUALITY_FAIR
      else QUALITY_POOR
  | _, _ => QUALITY_UNKNOWN
  end.

(** The quality label [draw_ui] shows for a history and a window size. *)
Definition draw_quality (ping_history : list (option float)) (window_size : Z)
  : result quality :=
  (s <- compute_recent_stats ping_history window_size ;;
   Ok (quality_label s window_size))%result.

(** The key passed to [tr] for the alert line. *)
Inductive alert : Type :=
| ALERT_DELAY_SPIKE
| ALERT_HIGH_LOSS.

(** "Spike indicator": the alert text chosen from the short-window
    statistics, [None] standing for the empty text.  The product
    [3.0 * short_avg_ping] and the difference
    [short_max_ping - short_avg_ping] are rounded before they are
    compared. *)
Definition alert_text (short : recent_stats) : option alert :=
  let populated :=
    recent_count short >=? Z.max 5 (SHORT_WINDOW_SIZE / 2) in
  if populated
     && match recent_avg_ping_ms short, recent_max_ping_ms short with
        | Some short_avg_ping, Some short_max_ping =>
            (3 * short_avg_ping <? short_max_ping)%float
            && (100 <? short_max_ping - short_avg_ping)%float
        | _, _ => false
        end
  then Some ALERT_DELAY_SPIKE
  else if populated && (10 <=? recent_loss_pct short)%float
  then Some ALERT_HIGH_LOSS
  else None.

(** The alert line of [draw_ui]: evaluated only when the row [alert_y]
    is on the screen. *)
Definition draw_alert (ping_history : list (option float)) (alert_y max_y : Z)
  : result (option alert) :=
  (short <- compute_recent_stats ping_history SHORT_WINDOW_SIZE ;;
   Ok (if alert_y <? max_y then alert_text short else None))%result.

(** ** Scenarios *)

Definition scenario_history : list (option float) :=
  [Some 20%float; None; Some 22%float; Some 21%float; None; Some 19%float].

Definition scenario_trace : list string :=
  ["1  10.0.0.1 (10.0.0.1)  1.2 ms  1.1 ms"; "2  * * *"].

Definition scenario_header : string :=
  "traceroute to 10.0.0.9 (10.0.0.9), 30 hops max, 60 byte packets".


Definition reply_with_time : string :=
  "64 bytes from 10.0.0.9: icmp_seq=0 ttl=57 time=12.5 ms".

Definition reply_without_time : string :=
  "64 bytes from 10.0.0.9: icmp_seq=1 ttl=57".

(** The state after one probe of a fresh monitor was answered in 12.5 ms. *)
Definition state_after_reply : MonitorState :=
  ping_cycle (ping_exited 0 reply_with_time) (MonitorState_init "10.0.0.9").

(** A trace session in progress. *)
Definition state_tracing : MonitorState :=
  traceroute_publish ["1  10.0.0.1 (10.0.0.1)  1.2 ms  1.1 ms"]
    (traceroute_begin 100 state_after_reply).

(** A complete run of the trace tool: header, two hops, exit status 0. *)
Definition scenario_run : trace_run :=
  mk_trace_run 200 None 200.5
    [(scenario_header, 201%Q);
     ("1  10.0.0.1 (10.0.0.1)  1.2 ms  1.1 ms", 202%Q);
     ("2  * * *", 217%Q)]
    None (Some 0) 217.5.

(** ** The statistics as the specification words them

    These definitions follow the text of the specification, not the
    code; the theorems below compare them with [compute_recent_stats].
    The specification's arithmetic is read on binary64, each operation
    rounded: a percentage is the fraction times 100, a mean is the
    values added in stored order and divided by their number. *)

Module Spec.

(** The most recent [n] entries of a sequence. *)
Definition most_recent {A : Type} (n : nat) (l : list A) : list A :=
  skipn (length l - n) l.

(** The entries considered for window size [W]: the most recent
    [min(W, len(history))]. *)
Definition considered (history : list (option float)) (W : Z)
  : list (option float) :=
  most_recent (Nat.min (Z.to_nat W) (length history)) history.

Definition is_absent (v : option float) : bool :=
  match v with None => true | Some _ => false end.

Definition count (window : list (option float)) : Z :=
  Z.of_nat (length window).

Definition lost (window : list (option float)) : Z :=
  Z.of_nat (length (filter is_absent window)).

(** The lost fraction [lost / count], as a percentage. *)
Definition lossPct (window : list (option float)) : float :=
  if count window =? 0 then 0%float
  else (Float64.of_int (lost window) / Float64.of_int (count window)
        * 100)%float.

(** The present values, in stored order. *)
Definition present (window : list (option float)) : list float :=
  flat_map (fun v => match v with Some x => [x] | None => [] end) window.

(** The values added up in stored order. *)
Definition total (l : list float) : float :=
  fold_left PrimFloat.add l 0%float.

Definition mean (l : list float) : float :=
  (total l / Float64.of_int (Z.of_nat (length l)))%float.

Definition avgRtt (window : list (option float)) : option float :=
  match present window with
  | [] => None
  | p => Some (mean p)
  end.

(** [m] is a value of [l] and no value of [l] is less (greater). *)
Definition is_min (l : list float) (m : float) : Prop :=
  In m l /\ Forall (fun x => (x <? m)%float = false) l.

Definition is_max (l : list float) (m : float) : Prop :=
  In m l /\ Forall (fun x => (m <? x)%float = false) l.

(** [minRtt]/[maxRtt] of the window is [r]. *)
Definition extreme_is (is_ext : list float -> float -> Prop)
    (window : list (option float)) (r : option float) : Prop :=
  match r with
  | None => present window = []
  | Some m => is_ext (present window) m
  end.

(** Absolute deltas between consecutive values. *)
Fixpoint abs_deltas (l : list float) : list float :=
  match l with
  | a :: (b :: _) as r => abs (b - a)%float :: abs_deltas r
  | _ => []
  end.

Definition jitter (window : list (option float)) : option float :=
  match present window with
  | _ :: _ :: _ => Some (mean (abs_deltas (present window)))
  | _ => None
  end.

(** [s] is the windowed statistics of [window]. *)
Definition windowedStats (window : list (option float)) (s : recent_stats)
  : Prop :=
  recent_count s = count window /\
  recent_lost s = lost window /\
  recent_loss_pct s = lossPct window /\
  recent_avg_ping_ms s = avgRtt window /\
  extreme_is is_min window (recent_min_ping_ms s) /\
  extreme_is is_max window (recent_max_ping_ms s) /\
  jitter_ms s = jitter window.

End Spec.

(** The rational a finite binary64 stands for. *)
Definition float_to_Q (x : float) : option Q :=
  match Prim2SF x with
  | S754_zero _ => Some 0%Q
  | S754_finite s m e =>
      Some (inject_Z (if s then Z.neg m else Z.pos m) * Qpower 2 e)%Q
  | _ => None
  end.

(** The binary64 loss percentage of [lost] in [count] is within 10^-13
    of the rational [100 * lost / count]. *)
Definition loss_pct_close (lost count : Z) : bool :=
  match float_to_Q (Float64.of_int lost / Float64.of_int count * 100)%float
  with
  | Some q =>
      Qle_bool (Qabs (q - 100 * inject_Z lost / inject_Z count))
               (1 / inject_Z (10 ^ 13))
  | None => false
  end.

(** ** Thresholds of the loss percentage in counts

    Whether the binary64 loss percentage of [lost] in [count] compares
    with the thresholds of the quality label and of the alert as the
    counts do. *)
Definition loss_pct_of (lost count : Z) : float :=
  (Float64.of_int lost / Float64.of_int count * 100)%float.

Definition loss_thresholds_exact (lost count : Z) : bool :=
  Bool.eqb (loss_pct_of lost count <? 1)%float (100 * lost <? count)
  && Bool.eqb (loss_pct_of lost count <? 2)%float (100 * lost <? 2 * count)
  && Bool.eqb (loss_pct_of lost count <? 5)%float (100 * lost <? 5 * count)
  && Bool.eqb (10 <=? loss_pct_of lost count)%float
       (10 * count <=? 100 * lost).

(** The statistics of the scenario history over a window of 6. *)
Definition scenario_stats : recent_stats :=
  mk_recent_stats (2 / 6 * 100)%float (Some 20.5%float) 6 2
    (Some 19%float) (Some 22%float) (Some (5 / 3)%float).

(** * Properties *)

Unset Implicit Arguments.
Close Scope string_scope.

(** ** Helper lemmas on the Python primitives *)

Lemma Qlt_bool_iff (x y : Q) : Py.Qlt_bool x y = true <-> (x < y)%Q.
Proof. unfold Py.Qlt_bool, Qlt. apply Z.ltb_lt. Qed.

Lemma Qlt_bool_false_iff (x y : Q) : Py.Qlt_bool x y = false <-> (y <= x)%Q.
Proof. unfold Py.Qlt_bool, Qle. rewrite Z.ltb_ge. reflexivity. Qed.

Lemma truediv_nonzero (a : float) (n : Z) :
  n <> 0 -> Float64.truediv a n = Ok (a / Float64.of_int n)%float.
Proof.
  intros Hn. unfold Float64.truediv.
  destruct (Z.eqb_spec n 0); [contradiction|reflexivity].
Qed.

Lemma truediv_int_nonzero (a n : Z) :
  n <> 0 ->
  Float64.truediv_int a n = Ok (Float64.of_int a / Float64.of_int n)%float.
Proof.
  intros Hn. unfold Float64.truediv_int.
  destruct (Z.eqb_spec n 0); [contradiction|reflexivity].
Qed.

(** The order of binary64: [<] is irreflexive and transitive, also in
    the presence of infinities and NaN. *)
Lemma SFltb_irrefl (a : spec_float) : SFltb a a = false.
Proof.
  unfold SFltb.
  destruct a as [s|s| |s m e]; try destruct s; cbn; try reflexivity;
    rewrite Z.compare_refl;
    change (Pos.compare_cont Eq m m) with (Pos.compare m m);
    rewrite Pos.compare_refl; reflexivity.
Qed.

Lemma SFltb_trans (a b c : spec_float) :
  SFltb a b = true -> SFltb b c = true -> SFltb a c = true.
Proof.
  unfold SFltb.
  destruct a as [sa|sa| |sa ma ea], b as [sb|sb| |sb mb eb],
           c as [sc|sc| |sc mc ec];
    try destruct sa; try destruct sb; try destruct sc;
    cbn; try discriminate; try reflexivity; intros H1 H2;
    change (Pos.compare_cont Eq ?x ?y) with (Pos.compare x y) in *;
    repeat match goal with
      | H : context [Z.compare ?x ?y] |- _ =>
          destruct (Z.compare_spec x y); try discriminate
      | |- context [Z.compare ?x ?y] =>
          destruct (Z.compare_spec x y); try discriminate
      end;
    repeat match goal with
      | H : context [Pos.compare ?x ?y] |- _ =>
          destruct (Pos.compare_spec x y); try discriminate
      | |- context [Pos.compare ?x ?y] =>
          destruct (Pos.compare_spec x y); try discriminate
      end;
    cbn in *; try discriminate; try reflexivity; try lia.
Qed.

Lemma float_ltb_irrefl (x : float) : (x <? x)%float = false.
Proof. rewrite ltb_spec. apply SFltb_irrefl. Qed.

Lemma float_ltb_trans (x y z : float) :
  (x <? y)%float = true -> (y <? z)%float = true -> (x <? z)%float = true.
Proof. rewrite !ltb_spec. apply SFltb_trans. Qed.

(** Equal floats are not one less than the other. *)
Lemma float_eqb_not_ltb (x y : float) :
  (x =? y)%float = true -> (x <? y)%float = false.
Proof.
  rewrite eqb_spec, ltb_spec. unfold SFeqb, SFltb.
  destruct (SFcompare (Prim2SF x) (Prim2SF y)) as [[| |]|];
    intros H; try discriminate H; reflexivity.
Qed.
Lemma slice_from_recent {A : Type} (l : list A) (W : Z) :
  0 < W ->
  Py.slice_from l (- W) = Spec.most_recent (Nat.min (Z.to_nat W) (length l)) l.
Proof.
  intros HW. unfold Py.slice_from, Spec.most_recent, Py.len.
  replace (- W <? 0) with true by (symmetry; apply Z.ltb_lt; lia).
  f_equal. lia.
Qed.

Lemma most_recent_length {A : Type} (n : nat) (l : list A) :
  length (Spec.most_recent n l) = Nat.min n (length l).
Proof. unfold Spec.most_recent. rewrite length_skipn. lia. Qed.

Lemma successes_of_present (w : list (option float)) :
  successes_of w = Spec.present w.
Proof.
  induction w as [|[v|] w IH]; simpl; [reflexivity| |assumption].
  now rewrite IH.
Qed.

Lemma present_absent_length (w : list (option float)) :
  (length (Spec.present w) + length (filter Spec.is_absent w) = length w)%nat.
Proof.
  induction w as [|[v|] w IH]; simpl; lia.
Qed.

(** The running minimum of a left fold is a value it has seen, and none
    it has seen is less. *)
Lemma fold_min_spec (r : list float) (x : float) :
  Spec.is_min (x :: r)
    (fold_left (fun m y => if (y <? m)%float then y else m) r x).
Proof.
  assert (H : forall r seen m,
             In m seen -> Forall (fun z => (z <? m)%float = false) seen ->
             let m' := fold_left (fun m y => if (y <? m)%float then y else m)
                                 r m in
             In m' (seen ++ r) /\
             Forall (fun z => (z <? m')%float = false) (seen ++ r)).
  { clear. induction r as [|y r IH]; intros seen m Hin Hall; simpl.
    - rewrite app_nil_r. auto.
    - replace (seen ++ y :: r) with ((seen ++ [y]) ++ r)
        by (rewrite <- app_assoc; reflexivity).
      apply IH.
      + destruct (y <? m)%float; apply in_or_app; simpl; auto.
      + apply Forall_app. split.
        * destruct (y <? m)%float eqn:E; [|assumption].
          eapply Forall_impl; [|exact Hall]. intros z Hz. simpl in Hz.
          destruct (z <? y)%float eqn:Ezy; [|reflexivity].
          rewrite (float_ltb_trans z y m Ezy E) in Hz. discriminate.
        * constructor; [|constructor].
          destruct (y <? m)%float eqn:E; [apply float_ltb_irrefl|exact E]. }
  specialize (H r [x] x). simpl in H.
  apply H; [auto|]. constructor; [apply float_ltb_irrefl|constructor].
Qed.

Lemma fold_max_spec (r : list float) (x : float) :
  Spec.is_max (x :: r)
    (fold_left (fun m y => if (m <? y)%float then y else m) r x).
Proof.
  assert (H : forall r seen m,
             In m seen -> Forall (fun z => (m <? z)%float = false) seen ->
             let m' := fold_left (fun m y => if (m <? y)%float then y else m)
                                 r m in
             In m' (seen ++ r) /\
             Forall (fun z => (m' <? z)%float = false) (seen ++ r)).
  { clear. induction r as [|y r IH]; intros seen m Hin Hall; simpl.
    - rewrite app_nil_r. auto.
    - replace (seen ++ y :: r) with ((seen ++ [y]) ++ r)
        by (rewrite <- app_assoc; reflexivity).
      apply IH.
      + destruct (m <? y)%float; apply in_or_app; simpl; auto.
      + apply Forall_app. split.
        * destruct (m <? y)%float eqn:E; [|assumption].
          eapply Forall_impl; [|exact Hall]. intros z Hz. simpl in Hz.
          destruct (y <? z)%float eqn:Eyz; [|reflexivity].
          rewrite (float_ltb_trans m y z E Eyz) in Hz. discriminate.
        * constructor; [|constructor].
          destruct (m <? y)%float eqn:E; [apply float_ltb_irrefl|exact E]. }
  specialize (H r [x] x). simpl in H.
  apply H; [auto|]. constructor; [apply float_ltb_irrefl|constructor].
Qed.

Lemma index_cons {A : Type} (a : A) (l : list A) (i : Z) :
  0 <= i -> Py.index (a :: l) (i + 1) = Py.index l i.
Proof.
  intros Hi.
  assert (E1 : (i + 1 <? 0) = false) by (apply Z.ltb_ge; lia).
  assert (E2 : (i <? 0) = false) by (apply Z.ltb_ge; lia).
  unfold Py.index. cbv zeta. rewrite !E1, !E2.
  replace (Z.to_nat (i + 1)) with (S (Z.to_nat i)) by lia.
  reflexivity.
Qed.

Lemma mapM_ext {A B : Type} (f g : A -> result B) (l : list A) :
  (forall x, In x l -> f x = g x) -> mapM f l = mapM g l.
Proof.
  induction l as [|x l IH]; intros H; simpl; [reflexivity|].
  rewrite (H x) by (simpl; auto).
  rewrite IH by (intros y Hy; apply H; simpl; auto).
  reflexivity.
Qed.

Lemma mapM_map {A B C : Type} (f : B -> result C) (g : A -> B) (l : list A) :
  mapM f (map g l) = mapM (fun x => f (g x)) l.
Proof.
  induction l as [|x l IH]; simpl; [reflexivity|]. now rewrite IH.
Qed.

(** The comprehension over [range(1, recent_success)] never indexes out
    of range and yields the deltas of consecutive values, in order. *)
Lemma deltas_eval (s : list float) :
  mapM (fun i =>
          bind (Py.index s i) (fun a =>
          bind (Py.index s (i - 1)) (fun b => Ok (abs (a - b))%float)))
       (Py.range 1 (Py.len s))
  = Ok (Spec.abs_deltas s).
Proof.
  unfold Py.range, Py.len.
  induction s as [|a s IH]; [reflexivity|].
  destruct s as [|b r]; [reflexivity|].
  replace (Z.to_nat (Z.of_nat (length (a :: b :: r)) - 1))
    with (S (length r)) by (simpl length; lia).
  replace (Z.to_nat (Z.of_nat (length (b :: r)) - 1))
    with (length r) in IH by (simpl length; lia).
  cbn [seq map mapM]. rewrite <- seq_shift, map_map, mapM_map.
  rewrite mapM_map in IH.
  erewrite mapM_ext.
  - rewrite IH. reflexivity.
  - intros k _. cbv beta.
    replace (1 + Z.of_nat (S k)) with ((1 + Z.of_nat k) + 1) by lia.
    rewrite index_cons by lia.
    replace (1 + Z.of_nat k + 1 - 1) with ((1 + Z.of_nat k - 1) + 1) by lia.
    rewrite index_cons by lia.
    reflexivity.
Qed.

Lemma abs_deltas_length (s : list float) :
  length (Spec.abs_deltas s) = (length s - 1)%nat.
Proof.
  induction s as [|a s IH]; [reflexivity|].
  destruct s as [|b r]; [reflexivity|].
  change (Spec.abs_deltas (a :: b :: r))
    with (abs (b - a)%float :: Spec.abs_deltas (b :: r)).
  simpl length in *. lia.
Qed.

Lemma windowedStats_empty : Spec.windowedStats [] no_stats.
Proof.
  unfold Spec.windowedStats, Spec.lossPct, Spec.avgRtt, Spec.jitter; simpl.
  repeat split; try reflexivity.
Qed.

(** [compute_recent_stats] always returns, and what it returns is the
    windowed statistics of the entries considered. *)
Lemma recent_stats_of_window (history : list (option float)) (W : Z) :
  0 < W ->
  exists s,
    compute_recent_stats history W = Ok s /\
    Spec.windowedStats (Spec.considered history W) s /\
    (Spec.considered history W = [] -> s = no_stats).
Proof.
  intros HW. unfold compute_recent_stats.
  replace (W <=? 0) with false by (symmetry; apply Z.leb_gt; lia).
  rewrite slice_from_recent by assumption.
  fold (Spec.considered history W).
  set (w := Spec.considered history W).
  destruct (Py.len w =? 0) eqn:Ew.
  - exists no_stats. split; [reflexivity|]. split; [|reflexivity].
    apply Z.eqb_eq in Ew. unfold Py.len in Ew.
    destruct w; [apply windowedStats_empty|simpl in Ew; lia].
  - apply Z.eqb_neq in Ew.
    assert (Hw : 0 < Py.len w) by (unfold Py.len in *; lia).
    assert (Hnil : w = [] -> False).
    { intros Hnil. rewrite Hnil in Hw. unfold Py.len in Hw. simpl in Hw. lia. }
    replace (Py.len w >? 0) with true
      by (symmetry; rewrite Z.gtb_ltb; apply Z.ltb_lt; lia).
    rewrite truediv_int_nonzero by lia.
    rewrite successes_of_present.
    pose proof (present_absent_length w) as Hlen.
    cbn [bind].
    assert (Hlost : Py.len w - Py.len (Spec.present w) = Spec.lost w)
      by (unfold Spec.lost, Py.len; lia).
    assert (Hloss :
      (Float64.of_int (Py.len w - Py.len (Spec.present w))
       / Float64.of_int (Py.len w) * 100)%float
      = Spec.lossPct w).
    { rewrite Hlost. unfold Spec.lossPct, Spec.count. fold (Py.len w).
      replace (Py.len w =? 0) with false by (symmetry; apply Z.eqb_neq; lia).
      reflexivity. }
    rewrite Hloss, Hlost.
    unfold Spec.windowedStats, Spec.avgRtt, Spec.jitter, Spec.extreme_is.
    destruct (Spec.present w) as [|a [|b r]] eqn:Ep.
    + eexists. split; [reflexivity|].
      split; [|intros H; destruct (Hnil H)].
      repeat split; reflexivity.
    + eexists. split; [reflexivity|].
      split; [|intros H; destruct (Hnil H)].
      cbn [recent_count recent_lost recent_loss_pct recent_avg_ping_ms
           recent_min_ping_ms recent_max_ping_ms jitter_ms].
      repeat split; try reflexivity; try (left; reflexivity);
        constructor; try apply float_ltb_irrefl; constructor.
    + set (p := a :: b :: r) in *.
      assert (Hp : 2 <= Py.len p)
        by (unfold Py.len, p; simpl length; lia).
      replace (Py.len p >? 0) with true
        by (symmetry; rewrite Z.gtb_ltb; apply Z.ltb_lt; lia).
      replace (Py.len p >? 1) with true
        by (symmetry; rewrite Z.gtb_ltb; apply Z.ltb_lt; lia).
      rewrite truediv_nonzero by lia.
      rewrite deltas_eval.
      cbn [bind].
      assert (Hd : Py.len (Spec.abs_deltas p) <> 0).
      { unfold Py.len in *. rewrite abs_deltas_length. lia. }
      rewrite truediv_nonzero by assumption.
      unfold Float64.min, Float64.max, p at 2 3. cbn [bind].
      eexists. split; [reflexivity|].
      split; [|intros H; destruct (Hnil H)].
      cbn [recent_count recent_lost recent_loss_pct recent_avg_ping_ms
           recent_min_ping_ms recent_max_ping_ms jitter_ms].
      split; [reflexivity|]. split; [reflexivity|]. split; [reflexivity|].
      split; [reflexivity|].
      split; [apply fold_min_spec|].
      split; [apply fold_max_spec|].
      reflexivity.
Qed.

Lemma range_In (a b x : Z) : a <= x < b -> In x (Py.range a b).
Proof.
  intros H. unfold Py.range. apply in_map_iff.
  exists (Z.to_nat (x - a)). split; [lia|]. apply in_seq. lia.
Qed.

Lemma loss_pct_close_upto_300 :
  forallb (fun c => forallb (fun l => loss_pct_close l c) (Py.range 0 (c + 1)))
    (Py.range 1 301) = true.
Proof. vm_compute. reflexivity. Qed.

(** On a window of at most 300 entries the loss percentage is a finite
    binary64 within 10^-13 of [100 * lost / count]. *)
Lemma lossPct_close (window : list (option float)) :
  0 < Spec.count window <= 300 ->
  exists q,
    float_to_Q (Spec.lossPct window) = Some q /\
    (Qabs (q - 100 * inject_Z (Spec.lost window)
               / inject_Z (Spec.count window))
     <= 1 / inject_Z (10 ^ 13))%Q.
Proof.
  intros Hc.
  pose proof (present_absent_length window) as Hlen.
  assert (Hl : 0 <= Spec.lost window <= Spec.count window)
    by (unfold Spec.lost, Spec.count; lia).
  pose proof loss_pct_close_upto_300 as H.
  rewrite forallb_forall in H.
  assert (Hc' : 1 <= Spec.count window < 301) by lia.
  assert (Hl' : 0 <= Spec.lost window < Spec.count window + 1) by lia.
  specialize (H _ (range_In _ _ _ Hc')).
  rewrite forallb_forall in H.
  specialize (H _ (range_In _ _ _ Hl')).
  unfold Spec.lossPct.
  replace (Spec.count window =? 0) with false
    by (symmetry; apply Z.eqb_neq; lia).
  unfold loss_pct_close in H.
  destruct (float_to_Q _) as [q|]; [|discriminate].
  exists q. split; [reflexivity|]. apply Qle_bool_iff. exact H.
Qed.

(** ** Windowed statistics *)

(** C1: for every latency history and every window size W > 0,
    [compute_recent_stats] returns the statistics of the most recent
    min(W, len(history)) entries: count is the number of entries
    considered, lost the number of absent entries, the loss percentage
    is the fraction lost / count times 100 (0 for an empty window),
    the average is the mean of the present values (None without any),
    minimum and maximum are present values with none less, none greater
    (None without any), and jitter is the mean absolute delta between
    consecutive present values in stored order (None with fewer than
    two); every operation is the binary64 one the code performs.  On
    the history [20, None, 22, 21, None, 19] with W = 6 this gives loss
    2/6 as a percentage, average 20.5, minimum 19, maximum 22 and jitter
    5/3.  On the histories the monitor holds (at most 300 entries) the
    loss percentage returned is within 10^-13 of the rational
    100 * lost / count. *)
Theorem compute_recent_stats_windowedStats :
  (forall (history : list (option float)) (W : Z),
      0 < W ->
      exists s,
        compute_recent_stats history W = Ok s /\
        Spec.windowedStats (Spec.considered history W) s) /\
  (exists s,
      compute_recent_stats scenario_history 6 = Ok s /\
      recent_count s = 6 /\
      recent_lost s = 2 /\
      recent_loss_pct s = (2 / 6 * 100)%float /\
      recent_avg_ping_ms s = Some 20.5%float /\
      recent_min_ping_ms s = Some 19%float /\
      recent_max_ping_ms s = Some 22%float /\
      jitter_ms s = Some (5 / 3)%float) /\
  (forall (history : list (option float)) (W : Z),
      0 < W -> Py.len history <= PING_HISTORY_LENGTH ->
      exists s q,
        compute_recent_stats history W = Ok s /\
        float_to_Q (recent_loss_pct s) = Some q /\
        (recent_count s = 0 -> q = 0%Q) /\
        (0 < recent_count s ->
         (Qabs (q - 100 * inject_Z (recent_lost s) / inject_Z (recent_count s))
          <= 1 / inject_Z (10 ^ 13))%Q)).
Proof.
  split; [|split].
  - intros history W HW.
    destruct (recent_stats_of_window history W HW) as (s & Hs & Hspec & _).
    exists s. split; assumption.
  - eexists. split; [vm_compute; reflexivity|].
    repeat split; vm_compute; reflexivity.
  - intros history W HW Hlen.
    destruct (recent_stats_of_window history W HW)
      as (s & Hs & (Hc & Hl & Hp & _) & _).
    assert (Hle : Spec.count (Spec.considered history W) <= 300).
    { unfold Spec.count, Spec.considered. rewrite most_recent_length.
      unfold Py.len, PING_HISTORY_LENGTH in Hlen. lia. }
    exists s. rewrite Hp, Hc, Hl.
    destruct (Z.eq_dec (Spec.count (Spec.considered history W)) 0) as [E|E].
    + exists 0%Q. unfold Spec.lossPct. rewrite E.
      split; [assumption|]. split; [reflexivity|].
      split; [reflexivity|]. lia.
    + assert (H0 : 0 < Spec.count (Spec.considered history W) <= 300)
        by (unfold Spec.count in *; lia).
      destruct (lossPct_close _ H0) as (q & Hq & Hb).
      exists q. split; [assumption|]. split; [assumption|].
      split; [intros; lia|]. intros _. exact Hb.
Qed.

Lemma compute_recent_stats_windowedStats_witness :
  0 < 6 /\
  exists s,
    compute_recent_stats scenario_history 6 = Ok s /\
    Spec.windowedStats (Spec.considered scenario_history 6) s.
Proof.
  split; [lia|].
  apply (proj1 compute_recent_stats_windowedStats scenario_history 6).
  lia.
Defined.

#[local] Set Warnings "-inexact-float".

(** The values [compute_recent_stats] returns are the rounded ones: the
    scenario's loss percentage is 33.33333333333333 (one unit in the
    last place below the binary64 nearest to 100/3, which the order
    100 * 2 / 6 would give) and its jitter 1.6666666666666667; the
    average of fifteen samples of 39.9 followed by fifteen of 40.1 is
    39.99999999999999, not 40. *)
Example compute_recent_stats_rounding :
  (exists s,
      compute_recent_stats scenario_history 6 = Ok s /\
      recent_loss_pct s = 33.33333333333333%float /\
      (recent_loss_pct s =? 100 * 2 / 6)%float = false /\
      (33.3 <? recent_loss_pct s)%float = true /\
      (recent_loss_pct s <? 33.4)%float = true /\
      jitter_ms s = Some 1.6666666666666667%float) /\
  (exists s,
      compute_recent_stats
        (repeat (Some 39.9%float) 15 ++ repeat (Some 40.1%float) 15) 60
      = Ok s /\
      recent_count s = 30 /\
      recent_loss_pct s = 0%float /\
      recent_avg_ping_ms s = Some 39.99999999999999%float /\
      recent_min_ping_ms s = Some 39.9%float /\
      recent_max_ping_ms s = Some 40.1%float).
Proof.
  split; (eexists; split; [vm_compute; reflexivity|]);
    repeat split; vm_compute; reflexivity.
Qed.

(** C10: [compute_recent_stats] returns a value on every input and never
    raises (in particular no division by zero: a zero divisor would make
    the model raise [ZeroDivisionError]); for a window size <= 0 or an
    empty slice it returns exactly [(0.0, None, 0, 0, None, None, None)];
    and for a positive window size the returned count is at most
    min(window_size, len(history)). *)
Theorem compute_recent_stats_total (history : list (option float)) (W : Z) :
  (exists s,
      compute_recent_stats history W = Ok s /\
      (0 < W -> recent_count s <= Z.min W (Py.len history))) /\
  (W <= 0 \/ Py.slice_from history (- W) = [] ->
   compute_recent_stats history W = Ok no_stats).
Proof.
  destruct (Z.ltb_spec 0 W) as [HW|HW].
  - destruct (recent_stats_of_window history W HW) as (s & Hs & Hspec & Hnil).
    split.
    + exists s. split; [assumption|]. intros _.
      destruct Hspec as (Hc & _). rewrite Hc.
      unfold Spec.count, Spec.considered, Py.len.
      rewrite most_recent_length. lia.
    + intros [Hle|Hsl]; [lia|].
      rewrite slice_from_recent in Hsl by assumption.
      rewrite Hs, (Hnil Hsl). reflexivity.
  - assert (E : compute_recent_stats history W = Ok no_stats).
    { unfold compute_recent_stats.
      replace (W <=? 0) with true by (symmetry; apply Z.leb_le; lia).
      reflexivity. }
    split.
    + exists no_stats. split; [assumption|]. lia.
    + intros _. assumption.
Qed.

Lemma compute_recent_stats_total_witness :
  (exists s,
      compute_recent_stats scenario_history 4 = Ok s /\
      recent_count s <= Z.min 4 (Py.len scenario_history)) /\
  compute_recent_stats scenario_history (- 3) = Ok no_stats /\
  compute_recent_stats [] 5 = Ok no_stats.
Proof.
  split; [|split].
  - destruct (proj1 (compute_recent_stats_total scenario_history 4))
      as (s & Hs & Hc).
    exists s. split; [exact Hs|]. apply Hc. lia.
  - apply (proj2 (compute_recent_stats_total scenario_history (- 3))).
    left. lia.
  - apply (proj2 (compute_recent_stats_total [] 5)).
    right. reflexivity.
Defined.

(** ** Quality classification and alerts *)

(** C4: the label is UNKNOWN whenever the count is below
    max(20, window_size / 2) or there is no windowed average; when the
    classification is evaluated the tiers are tried in the order
    EXCELLENT, GOOD, FAIR, else POOR, each with strict comparisons, so a
    windowed loss of exactly 1.0 or a windowed average of exactly 40
    never gives EXCELLENT. *)
Theorem quality_label_thresholds (s : recent_stats) (window_size : Z) :
  let loss := recent_loss_pct s in
  let excellent avg :=
    (loss <? 1)%float = true /\ (avg <? 40)%float = true /\
    (jitter_ms s = None \/
     exists j, jitter_ms s = Some j /\ (j <? 5)%float = true) in
  let good avg := (loss <? 2)%float = true /\ (avg <? 80)%float = true in
  let fair avg := (loss <? 5)%float = true /\ (avg <? 150)%float = true in
  (recent_count s < Z.max 20 (window_size / 2) \/ recent_avg_ping_ms s = None ->
   quality_label s window_size = QUALITY_UNKNOWN) /\
  (forall avg,
      Z.max 20 (window_size / 2) <= recent_count s ->
      recent_avg_ping_ms s = Some avg ->
      (excellent avg -> quality_label s window_size = QUALITY_EXCELLENT) /\
      (~ excellent avg -> good avg ->
       quality_label s window_size = QUALITY_GOOD) /\
      (~ excellent avg -> ~ good avg -> fair avg ->
       quality_label s window_size = QUALITY_FAIR) /\
      (~ excellent avg -> ~ good avg -> ~ fair avg ->
       quality_label s window_size = QUALITY_POOR)) /\
  ((loss =? 1)%float = true -> quality_label s window_size <> QUALITY_EXCELLENT) /\
  (forall avg, recent_avg_ping_ms s = Some avg -> (avg =? 40)%float = true ->
               quality_label s window_size <> QUALITY_EXCELLENT) /\
  (Z.even window_size = true -> 2 * recent_count s < window_size ->
   quality_label s window_size = QUALITY_UNKNOWN).
Proof.
  cbv zeta.
  assert (Heven : Z.even window_size = true ->
                  2 * recent_count s < window_size ->
                  recent_count s < Z.max 20 (window_size / 2)).
  { intros He Hc. apply Z.even_spec in He. destruct He as [k ->].
    rewrite Z.mul_comm, Z.div_mul by lia. lia. }
  unfold quality_label.
  destruct (recent_count s >=? Z.max 20 (window_size / 2)) eqn:Ec;
    destruct (recent_avg_ping_ms s) as [a|] eqn:Ea;
    rewrite Z.geb_leb in Ec;
    [apply Z.leb_le in Ec|apply Z.leb_le in Ec
     |apply Z.leb_gt in Ec|apply Z.leb_gt in Ec].
  2-4: (split; [intros _; reflexivity|]);
       (split; [intros avg Hc Hs; exfalso; first [lia|discriminate]|]);
       (split; [intros; discriminate|]);
       split; [intros; discriminate|reflexivity].
  split; [intros [H|H]; [lia|discriminate]|].
  split.
  - intros avg _ Havg. injection Havg as <-.
    set (be := (recent_loss_pct s <? 1)%float && (a <? 40)%float
               && match jitter_ms s with
                  | Some j => (j <? 5)%float
                  | None => true
                  end).
    set (bg := (recent_loss_pct s <? 2)%float && (a <? 80)%float).
    set (bf := (recent_loss_pct s <? 5)%float && (a <? 150)%float).
    assert (He : be = true <->
                 (recent_loss_pct s <? 1)%float = true /\
                 (a <? 40)%float = true /\
                 (jitter_ms s = None \/
                  exists j, jitter_ms s = Some j /\ (j <? 5)%float = true)).
    { unfold be. rewrite !andb_true_iff.
      destruct (jitter_ms s) as [j|].
      - split.
        + intros [[H1 H2] H3]. repeat split; auto. right. eauto.
        + intros (H1 & H2 & [H3|(j' & Hj & H3)]); [discriminate|].
          injection Hj as <-. auto.
      - split.
        + intros [[H1 H2] _]. auto.
        + intros (H1 & H2 & _). auto. }
    assert (Hg : bg = true <->
                 (recent_loss_pct s <? 2)%float = true /\
                 (a <? 80)%float = true).
    { unfold bg. apply andb_true_iff. }
    assert (Hf : bf = true <->
                 (recent_loss_pct s <? 5)%float = true /\
                 (a <? 150)%float = true).
    { unfold bf. apply andb_true_iff. }
    clearbody be bg bf.
    destruct be, bg, bf; repeat split; intros;
      try reflexivity; exfalso;
      first
        [ match goal with
          | Hn : ~ _, Hi : true = true <-> _ |- _ =>
              exact (Hn (proj1 Hi eq_refl))
          end
        | match goal with
          | Hp : _, Hi : false = true <-> _ |- _ =>
              discriminate (proj2 Hi Hp)
          end ].
  - split.
    + intros Hl. rewrite (float_eqb_not_ltb _ _ Hl).
      cbn [andb].
      repeat match goal with
        | |- context [if ?c then _ else _] => destruct c
        end; discriminate.
    + split.
      * intros avg Havg H40. injection Havg as <-.
        rewrite (float_eqb_not_ltb _ _ H40).
        rewrite andb_false_r. cbn [andb].
        repeat match goal with
          | |- context [if ?c then _ else _] => destruct c
          end; discriminate.
      * intros He Hc. specialize (Heven He Hc). lia.
Qed.

Lemma quality_label_thresholds_witness :
  quality_label no_stats 60 = QUALITY_UNKNOWN /\
  quality_label
    (mk_recent_stats 1 (Some 10%float) 100 1 (Some 10%float) (Some 10%float)
       (Some 0%float))
    100 <> QUALITY_EXCELLENT /\
  quality_label
    (mk_recent_stats 0 (Some 40%float) 30 0 (Some 40%float) (Some 40%float)
       (Some 0%float))
    60 = QUALITY_GOOD.
Proof.
  split; [|split].
  - apply (proj1 (quality_label_thresholds no_stats 60)).
    right. reflexivity.
  - apply (proj1 (proj2 (proj2 (quality_label_thresholds
             (mk_recent_stats 1 (Some 10%float) 100 1 (Some 10%float)
                (Some 10%float) (Some 0%float)) 100)))).
    reflexivity.
  - refine (proj1 (proj2 (proj1 (proj2 (quality_label_thresholds
             (mk_recent_stats 0 (Some 40%float) 30 0 (Some 40%float)
                (Some 40%float) (Some 0%float)) 60)) 40%float _ eq_refl)) _ _).
    + vm_compute. discriminate.
    + cbn. intros (_ & H & _). vm_compute in H. discriminate.
    + cbn. split; reflexivity.
Defined.

(** On a full window of 100 probes with one loss the windowed loss is
    exactly 1.0: the label falls through to the GOOD tier; so does a
    window whose average is exactly 40.  Fifteen samples of 39.9
    followed by fifteen of 40.1 average to 39.99999999999999, which is
    below 40: the label is EXCELLENT. *)
Example draw_quality_boundaries :
  draw_quality (None :: repeat (Some 10%float) 99) 100 = Ok QUALITY_GOOD /\
  draw_quality (repeat (Some 40%float) 30) 60 = Ok QUALITY_GOOD /\
  draw_quality (repeat (Some 10%float) 30) 60 = Ok QUALITY_EXCELLENT /\
  draw_quality (repeat (Some 10%float) 19) 60 = Ok QUALITY_UNKNOWN /\
  draw_quality (repeat (Some 39.9%float) 15 ++ repeat (Some 40.1%float) 15) 60
  = Ok QUALITY_EXCELLENT.
Proof. repeat split; vm_compute; reflexivity. Qed.

(** C9: the alert evaluation over the short window of 10 samples yields
    at most one alert: the delay-spike alert when the window holds at
    least max(5, 10 / 2) samples, has an average and a maximum, the
    maximum exceeds 3 times the average and exceeds it by more than 100;
    otherwise the high-loss alert when the window is as populated and
    its loss percentage is at least 10; otherwise none.  The spike alert
    wins when both conditions hold.  The product 3 * avg and the excess
    max - avg are the rounded binary64 ones the code compares. *)
Theorem alert_text_priority :
  forall (ping_history : list (option float)) (alert_y max_y : Z),
    alert_y < max_y ->
    exists short,
      compute_recent_stats ping_history SHORT_WINDOW_SIZE = Ok short /\
      Spec.windowedStats (Spec.considered ping_history 10) short /\
      draw_alert ping_history alert_y max_y = Ok (alert_text short) /\
      let populated := Z.max 5 (10 / 2) <= recent_count short in
      let spike :=
        populated /\
        exists avg mx,
          recent_avg_ping_ms short = Some avg /\
          recent_max_ping_ms short = Some mx /\
          (3 * avg <? mx)%float = true /\
          (100 <? mx - avg)%float = true in
      let high_loss :=
        populated /\ (10 <=? recent_loss_pct short)%float = true in
      (spike -> alert_text short = Some ALERT_DELAY_SPIKE) /\
      (~ spike -> high_loss -> alert_text short = Some ALERT_HIGH_LOSS) /\
      (~ spike -> ~ high_loss -> alert_text short = None).
Proof.
  intros ping_history alert_y max_y Hy.
  assert (H10 : 0 < SHORT_WINDOW_SIZE) by reflexivity.
  destruct (recent_stats_of_window ping_history _ H10)
    as (short & Hs & Hspec & _).
  exists short. split; [assumption|]. split; [assumption|]. split.
  { unfold draw_alert. rewrite Hs. cbn [bind].
    replace (alert_y <? max_y) with true by (symmetry; apply Z.ltb_lt; lia).
    reflexivity. }
  cbv zeta. unfold alert_text.
  change (SHORT_WINDOW_SIZE / 2) with (10 / 2).
  set (bp := recent_count short >=? Z.max 5 (10 / 2)).
  set (bs := match recent_avg_ping_ms short, recent_max_ping_ms short with
             | Some a, Some m =>
                 (3 * a <? m)%float && (100 <? m - a)%float
             | _, _ => false
             end).
  set (bl := (10 <=? recent_loss_pct short)%float).
  assert (Hp : bp = true <-> Z.max 5 (10 / 2) <= recent_count short).
  { unfold bp. rewrite Z.geb_leb. apply Z.leb_le. }
  assert (Hsp : bs = true <->
                exists avg mx,
                  recent_avg_ping_ms short = Some avg /\
                  recent_max_ping_ms short = Some mx /\
                  (3 * avg <? mx)%float = true /\
                  (100 <? mx - avg)%float = true).
  { unfold bs.
    destruct (recent_avg_ping_ms short) as [a|],
             (recent_max_ping_ms short) as [m|];
      try (split; [discriminate|intros (? & ? & ? & ? & _); discriminate]).
    rewrite andb_true_iff. split.
    - intros [H1 H2]. exists a, m. auto.
    - intros (a' & m' & Ha & Hm & H1 & H2).
      injection Ha as <-. injection Hm as <-. auto. }
  assert (Hl : bl = true <-> bl = true) by reflexivity.
  clearbody bp bs bl.
  destruct bp, bs, bl;
    cbn [andb]; repeat split; intros;
    try reflexivity; exfalso;
    repeat match goal with
      | H : _ /\ _ |- _ => destruct H
      end;
    first
      [ match goal with
        | Hn : ~ _ |- _ =>
            apply Hn; split;
            solve [ apply Hp; reflexivity
                  | apply Hsp; reflexivity
                  | reflexivity ]
        end
      | match goal with
        | Hi : false = true <-> ?P, Hp' : ?P |- _ =>
            discriminate (proj2 Hi Hp')
        end
      | discriminate ].
Qed.

Lemma alert_text_priority_witness :
  0 < 1 /\
  exists short,
    compute_recent_stats
      [Some 10%float; Some 10%float; Some 10%float; Some 10%float;
       Some 400%float]
      SHORT_WINDOW_SIZE = Ok short /\
    draw_alert
      [Some 10%float; Some 10%float; Some 10%float; Some 10%float;
       Some 400%float] 0 1
    = Ok (alert_text short).
Proof.
  split; [lia|].
  destruct (alert_text_priority
              [Some 10%float; Some 10%float; Some 10%float; Some 10%float;
               Some 400%float]
              0 1 ltac:(lia))
    as (short & H1 & _ & H2 & _).
  exists short. split; assumption.
Defined.

(** The comparisons of the alert see rounded values.  Four samples of
    5.8 followed by one of 130.8 have an excess of 100.00000000000001
    over their average: the spike alert is shown.  On the statistics
    (average 25.2, maximum 125.2) the excess 125.2 - 25.2 is exactly
    100.0: no spike.  Five lost probes in ten give the loss alert, and a
    spike in a window with losses is reported as a spike. *)
Example draw_alert_rounding :
  draw_alert (repeat (Some 5.8%float) 4 ++ [Some 130.8%float]) 0 1
  = Ok (Some ALERT_DELAY_SPIKE) /\
  alert_text
    (mk_recent_stats 0 (Some 25.2%float) 5 0 (Some 0%float)
       (Some 125.2%float) None) = None /\
  draw_alert (repeat None 5 ++ repeat (Some 10%float) 5) 0 1
  = Ok (Some ALERT_HIGH_LOSS) /\
  draw_alert (repeat None 5 ++ repeat (Some 10%float) 4 ++ [Some 400%float])
    0 1
  = Ok (Some ALERT_DELAY_SPIKE) /\
  draw_alert (repeat (Some 10%float) 10) 0 1 = Ok None /\
  draw_alert (repeat None 10) 1 1 = Ok None.
Proof. repeat split; vm_compute; reflexivity. Qed.

#[local] Set Warnings "inexact-float".

(** ** The ping commit and the counters *)

(** Splits [ping_commit] into the paths of its conditionals. *)
Ltac ping_commit_paths :=
  unfold ping_commit;
  repeat match goal with
    | |- context [match ?x with _ => _ end] =>
        match type of x with
        | bool => destruct x eqn:?
        | option _ => destruct x eqn:?
        end
    end.

Lemma ping_commit_total_sent success rtt state :
  total_sent (ping_commit success rtt state) = total_sent state + 1.
Proof. ping_commit_paths; reflexivity. Qed.

Lemma ping_commit_total_recv success rtt state :
  total_recv (ping_commit success rtt state)
  = total_recv state + (if success then 1 else 0).
Proof. ping_commit_paths; cbn; lia. Qed.

Lemma ping_commit_window_size success rtt state :
  window_size (ping_commit success rtt state) = window_size state.
Proof. ping_commit_paths; reflexivity. Qed.

Lemma ping_commit_ping_history success rtt state :
  ping_history (ping_commit success rtt state)
  = deque_append PING_HISTORY_LENGTH (ping_history state)
      (if success then rtt else None).
Proof. ping_commit_paths; reflexivity. Qed.

Lemma ping_commit_loss_history success rtt state :
  exists overall_loss_pct,
    loss_history (ping_commit success rtt state)
    = deque_append LOSS_HISTORY_LENGTH (loss_history state) overall_loss_pct.
Proof. ping_commit_paths; eexists; reflexivity. Qed.

(** [run_ping] has exactly the three outcomes. *)
Lemma run_ping_outcomes (proc : ping_process) :
  run_ping proc = Failure \/
  run_ping proc = SuccessNoRtt \/
  exists rtt, run_ping proc = Success rtt.
Proof.
  destruct proc as [|returncode stdout]; [left; reflexivity|].
  unfold run_ping.
  destruct (negb (returncode =? 0)); [left; reflexivity|].
  destruct (time_re_search stdout) as [g|]; [|right; left; reflexivity].
  destruct (py_float g) as [rtt|e].
  - right. right. exists rtt. reflexivity.
  - right. left. reflexivity.
Qed.

Example run_ping_reply_with_time :
  run_ping (ping_exited 0 reply_with_time) = Success 12.5.
Proof. vm_compute. reflexivity. Qed.

Example run_ping_nonzero_exit :
  run_ping (ping_exited 2 reply_with_time) = Failure.
Proof. reflexivity. Qed.

(** C3, as the code has it: the commit assigns the parsed RTT to
    [last_ping_ms] on every successful probe and None on a failed one, so
    [last_ping_ms] becomes None on Failure and on SuccessNoRtt alike and
    the RTT on Success; on SuccessNoRtt [total_recv] is still incremented,
    an absence marker enters the history and the lifetime minimum,
    maximum, sum, count and jitter accumulators keep their values. *)
Theorem ping_commit_last_ping_ms (state : MonitorState) :
  (let state' := ping_commit (fst Failure) (snd Failure) state in
   last_ping_ms state' = None /\
   total_sent state' = total_sent state + 1 /\
   total_recv state' = total_recv state) /\
  (let state' := ping_commit (fst SuccessNoRtt) (snd SuccessNoRtt) state in
   last_ping_ms state' = None /\
   total_sent state' = total_sent state + 1 /\
   total_recv state' = total_recv state + 1 /\
   min_rtt_all state' = min_rtt_all state /\
   max_rtt_all state' = max_rtt_all state /\
   success_rtt_sum state' = success_rtt_sum state /\
   total_success state' = total_success state /\
   jitter_sum_all state' = jitter_sum_all state /\
   jitter_count_all state' = jitter_count_all state /\
   last_success_rtt_all state' = last_success_rtt_all state /\
   ping_history state'
   = deque_append PING_HISTORY_LENGTH (ping_history state) None) /\
  (forall rtt,
      let state' := ping_commit (fst (Success rtt)) (snd (Success rtt)) state in
      last_ping_ms state' = Some rtt /\
      total_recv state' = total_recv state + 1).
Proof.
  split; [|split].
  - cbn. repeat split; reflexivity.
  - cbn. repeat split; reflexivity.
  - intros rtt. cbv zeta. split.
    + cbn [fst snd Success]. ping_commit_paths; reflexivity.
    + rewrite ping_commit_total_recv. reflexivity.
Qed.

(** C3, counterexample to "on SuccessNoRtt [last_ping_ms] does not
    become None": after a probe answered in 12.5 ms, a probe whose output
    has no [time=] token is a SuccessNoRtt and sets [last_ping_ms] to
    None. *)
Lemma SuccessNoRtt_clears_last_ping_ms :
  run_ping (ping_exited 0 reply_without_time) = SuccessNoRtt /\
  last_ping_ms state_after_reply = Some 12.5%Q /\
  last_ping_ms (ping_cycle (ping_exited 0 reply_without_time) state_after_reply)
  = None.
Proof. vm_compute. repeat split; reflexivity. Qed.

(** C6: [total_recv <= total_sent] holds in every state the module can
    reach and is preserved by every operation; no operation decreases
    either counter; a ping commit adds 1 to [total_sent] and adds 1 to
    [total_recv] exactly when the probe succeeded. *)
Theorem counters_invariant :
  (forall success rtt state,
      total_sent (ping_commit success rtt state) = total_sent state + 1 /\
      total_recv (ping_commit success rtt state)
      = total_recv state + (if success then 1 else 0)) /\
  (forall o state,
      total_sent state <= total_sent (apply_operation o state) /\
      total_recv state <= total_recv (apply_operation o state)) /\
  (forall o state,
      total_recv state <= total_sent state ->
      total_recv (apply_operation o state)
      <= total_sent (apply_operation o state)) /\
  (forall target_host ops,
      let state := run_operations ops (MonitorState_init target_host) in
      0 <= total_recv state <= total_sent state) /\
  (forall run state state',
      traceroute_worker run state = Ok state' ->
      total_sent state' = total_sent state /\
      total_recv state' = total_recv state).
Proof.
  assert (Hping : forall success rtt state,
             total_sent (ping_commit success rtt state) = total_sent state + 1 /\
             total_recv (ping_commit success rtt state)
             = total_recv state + (if success then 1 else 0)).
  { intros. split;
      [apply ping_commit_total_sent|apply ping_commit_total_recv]. }
  assert (Hop : forall o state,
             (total_sent (apply_operation o state) = total_sent state /\
              total_recv (apply_operation o state) = total_recv state) \/
             exists success : bool,
               total_sent (apply_operation o state) = total_sent state + 1 /\
               total_recv (apply_operation o state)
               = total_recv state + (if success then 1 else 0)).
  { intros [success rtt|ch| | | |] state.
    - right. exists success. apply Hping.
    - left. destruct ch; split; reflexivity.
    - left. split; reflexivity.
    - left. split; reflexivity.
    - left. split; reflexivity.
    - left. split; reflexivity. }
  split; [exact Hping|].
  split.
  { intros o state.
    destruct (Hop o state) as [[-> ->]|([|] & -> & ->)]; lia. }
  split.
  { intros o state H.
    destruct (Hop o state) as [[-> ->]|([|] & -> & ->)]; lia. }
  split.
  { intros target_host ops. cbv zeta. unfold run_operations.
    assert (G : forall ops state,
               0 <= total_recv state <= total_sent state ->
               0 <= total_recv (fold_left (fun st o => apply_operation o st)
                                          ops state)
               <= total_sent (fold_left (fun st o => apply_operation o st)
                                        ops state)).
    { clear - Hop. induction ops as [|o ops IH]; intros state H; [exact H|].
      cbn [fold_left]. apply IH.
      destruct (Hop o state) as [[-> ->]|([|] & -> & ->)]; lia. }
    apply G. cbn. lia. }
  intros run state state'. unfold traceroute_worker.
  destruct (traceroute_running state).
  { intros H. injection H as <-. split; reflexivity. }
  destruct (popen_raises run).
  { intros H. injection H as <-. split; reflexivity. }
  assert (Hs : forall output lines st,
             let r := traceroute_stream (start_time run) output lines st in
             total_sent (snd (fst r)) = total_sent st /\
             total_recv (snd (fst r)) = total_recv st).
  { induction output as [|[line now] output IH]; intros lines st;
      cbn [traceroute_stream].
    - split; reflexivity.
    - destruct (Py.Qlt_bool 300 (now - start_time run)).
      + split; reflexivity.
      + destruct (IH (lines ++ [rstrip_newline line])%list
                     (traceroute_publish
                        (lines ++ [rstrip_newline line])%list st))
          as [E1 E2].
        split; [rewrite E1|rewrite E2]; reflexivity. }
  specialize (Hs (stdout_lines run) []
                 (traceroute_begin (entry_time run) state)).
  destruct (traceroute_stream (start_time run) (stdout_lines run) []
              (traceroute_begin (entry_time run) state))
    as [[lines st] timed_out].
  cbn [fst snd] in Hs. destruct Hs as [E1 E2].
  match goal with
  | |- bind ?m _ = _ -> _ => destruct m as [summary|e]
  end; cbn [bind]; [|discriminate].
  intros H. injection H as <-.
  split.
  - transitivity (total_sent st); [reflexivity|]. rewrite E1. reflexivity.
  - transitivity (total_recv st); [reflexivity|]. rewrite E2. reflexivity.
Qed.

Lemma counters_invariant_witness :
  total_recv state_after_reply <= total_sent state_after_reply /\
  total_recv (apply_operation (op_ping false None) state_after_reply)
  <= total_sent (apply_operation (op_ping false None) state_after_reply).
Proof.
  assert (H : total_recv state_after_reply <= total_sent state_after_reply)
    by (vm_compute; discriminate).
  split; [exact H|].
  exact (proj1 (proj2 (proj2 counters_invariant))
           (op_ping false None) state_after_reply H).
Defined.

(** ** The bounded histories *)

Lemma deque_append_len {A : Type} (maxlen : Z) (d : list A) (x : A) :
  0 <= maxlen -> Py.len d <= maxlen ->
  Py.len (deque_append maxlen d x) <= maxlen.
Proof.
  intros Hm Hd. unfold deque_append, Py.len in *.
  destruct (Z.eqb_spec maxlen 0); [assumption|].
  destruct (Z.geb_spec (Z.of_nat (length d)) maxlen).
  - rewrite length_app. destruct d; simpl in *; lia.
  - rewrite length_app. simpl. lia.
Qed.

Lemma deque_append_full {A : Type} (maxlen : Z) (d : list A) (x : A) :
  0 < maxlen -> Py.len d = maxlen ->
  deque_append maxlen d x = tl d ++ [x].
Proof.
  intros Hm Hd. unfold deque_append.
  destruct (Z.eqb_spec maxlen 0); [lia|].
  destruct (Z.geb_spec (Py.len d) maxlen); [reflexivity|lia].
Qed.

Lemma deque_append_room {A : Type} (maxlen : Z) (d : list A) (x : A) :
  Py.len d < maxlen -> deque_append maxlen d x = d ++ [x].
Proof.
  intros Hd. unfold deque_append.
  assert (0 <= Py.len d) by (unfold Py.len; lia).
  destruct (Z.eqb_spec maxlen 0); [lia|].
  destruct (Z.geb_spec (Py.len d) maxlen); [lia|reflexivity].
Qed.

Lemma tl_skipn {A : Type} (k : nat) (l : list A) :
  tl (skipn k l) = skipn (S k) l.
Proof.
  revert l. induction k as [|k IH]; intros [|a l]; try reflexivity.
  cbn [skipn]. rewrite IH. reflexivity.
Qed.

(** Appending to a deque that holds the most recent [m] items of a
    sequence gives the most recent [m] items of the extended sequence. *)
Lemma deque_append_most_recent {A : Type} (m : nat) (l : list A) (x : A) :
  (0 < m)%nat ->
  deque_append (Z.of_nat m) (Spec.most_recent m l) x
  = Spec.most_recent m (l ++ [x]).
Proof.
  intros Hm. unfold Spec.most_recent. rewrite length_app. simpl length.
  destruct (Nat.lt_ge_cases (length l) m) as [Hlt|Hge].
  - replace (length l - m)%nat with 0%nat by lia.
    replace (length l + 1 - m)%nat with 0%nat by lia.
    cbn [skipn]. apply deque_append_room. unfold Py.len. lia.
  - rewrite deque_append_full.
    + rewrite tl_skipn, skipn_app.
      replace (length l + 1 - m)%nat with (S (length l - m)) by lia.
      replace (S (length l - m) - length l)%nat with 0%nat by lia.
      reflexivity.
    + lia.
    + unfold Py.len. rewrite length_skipn. lia.
Qed.

Lemma apply_operation_histories (o : operation) (state : MonitorState) :
  (exists success rtt, o = op_ping success rtt) \/
  (ping_history (apply_operation o state) = ping_history state /\
   loss_history (apply_operation o state) = loss_history state).
Proof.
  destruct o as [success rtt|ch| | | |].
  - left. eauto.
  - right. destruct ch; split; reflexivity.
  - right. split; reflexivity.
  - right. split; reflexivity.
  - right. split; reflexivity.
  - right. split; reflexivity.
Qed.

(** The history entry a probe result leaves: the RTT of a successful
    probe, the absence marker otherwise. *)
Lemma run_pings_history (probes : list (bool * option Q)) :
  forall (state : MonitorState) (sofar : list (option Q)),
    ping_history state = Spec.most_recent 300%nat sofar ->
    ping_history
      (run_operations (map (fun p => op_ping (fst p) (snd p)) probes) state)
    = Spec.most_recent 300%nat
        (sofar ++ map (fun p : bool * option Q => if fst p then snd p else None)
             probes).
Proof.
  unfold run_operations.
  induction probes as [|[success rtt] probes IH]; intros state sofar H.
  - cbn. rewrite app_nil_r. exact H.
  - cbn [map fold_left fst snd apply_operation].
    rewrite (IH _ (sofar ++ [if success then rtt else None])).
    + rewrite <- app_assoc. reflexivity.
    + rewrite ping_commit_ping_history, H.
      apply (deque_append_most_recent 300%nat). lia.
Qed.

(** C8: in every reachable state both histories hold at most 300
    entries; a ping commit on a full history drops the oldest entry and
    puts the new one last, the others keeping their order; after any
    sequence of ping commits on a fresh monitor the latency history is
    the most recent 300 entries in chronological order. *)
Theorem histories_bounded :
  (forall target_host ops,
      let state := run_operations ops (MonitorState_init target_host) in
      Py.len (ping_history state) <= 300 /\
      Py.len (loss_history state) <= 300) /\
  (forall success rtt state,
      Py.len (ping_history state) = 300 ->
      ping_history (ping_commit success rtt state)
      = tl (ping_history state) ++ [if success then rtt else None]) /\
  (forall success rtt state,
      Py.len (loss_history state) = 300 ->
      exists overall_loss_pct,
        loss_history (ping_commit success rtt state)
        = tl (loss_history state) ++ [overall_loss_pct]) /\
  (forall target_host (probes : list (bool * option Q)),
      ping_history
        (run_operations (map (fun p => op_ping (fst p) (snd p)) probes)
                        (MonitorState_init target_host))
      = Spec.most_recent 300%nat
          (map (fun p : bool * option Q => if fst p then snd p else None)
             probes)).
Proof.
  split; [|split; [|split]].
  - intros target_host ops. cbv zeta. unfold run_operations.
    assert (G : forall ops state,
               Py.len (ping_history state) <= 300 /\
               Py.len (loss_history state) <= 300 ->
               Py.len (ping_history
                         (fold_left (fun st o => apply_operation o st)
                                    ops state)) <= 300 /\
               Py.len (loss_history
                         (fold_left (fun st o => apply_operation o st)
                                    ops state)) <= 300).
    { clear. induction ops as [|o ops IH]; intros state H; [exact H|].
      cbn [fold_left]. apply IH.
      destruct (apply_operation_histories o state)
        as [(success & rtt & ->)|[-> ->]]; [|exact H].
      cbn [apply_operation]. rewrite ping_commit_ping_history.
      destruct (ping_commit_loss_history success rtt state) as [pct ->].
      split; apply deque_append_len; try apply H; unfold PING_HISTORY_LENGTH,
        LOSS_HISTORY_LENGTH; lia. }
    apply G. cbn. lia.
  - intros success rtt state H.
    rewrite ping_commit_ping_history.
    apply deque_append_full; [reflexivity|exact H].
  - intros success rtt state H.
    destruct (ping_commit_loss_history success rtt state) as [pct ->].
    exists pct. apply deque_append_full; [reflexivity|exact H].
  - intros target_host probes.
    apply (run_pings_history probes (MonitorState_init target_host) []).
    reflexivity.
Qed.

Lemma histories_bounded_witness :
  let full := set_ping_history (repeat (Some 7%Q) 300) state_after_reply in
  Py.len (ping_history full) = 300 /\
  ping_history (ping_commit false None full)
  = tl (ping_history full) ++ [None].
Proof.
  cbv zeta.
  assert (H : Py.len (ping_history
                        (set_ping_history (repeat (Some 7%Q) 300)
                                          state_after_reply)) = 300)
    by reflexivity.
  split; [exact H|].
  exact (proj1 (proj2 histories_bounded) false None _ H).
Defined.

(** ** The window size *)

Lemma apply_operation_window_size (o : operation) (state : MonitorState) :
  (exists ch, o = op_key ch) \/
  window_size (apply_operation o state) = window_size state.
Proof.
  destruct o as [success rtt|ch| | | |]; try (right; reflexivity).
  - right. apply ping_commit_window_size.
  - left. eauto.
Qed.

(** The window size starts at 60 and moves in steps of 10 between
    bounds that are multiples of 10: it is always a multiple of 10, and
    so its half is exact. *)
Lemma window_size_multiple_of_10 (target_host : string) (ops : list operation) :
  (window_size (run_operations ops (MonitorState_init target_host)) mod 10) = 0.
Proof.
  unfold run_operations.
  assert (G : forall ops state,
             window_size state mod 10 = 0 ->
             window_size (fold_left (fun st o => apply_operation o st)
                                    ops state) mod 10 = 0).
  { clear. induction ops as [|o ops IH]; intros state H; [exact H|].
    cbn [fold_left]. apply IH.
    destruct (apply_operation_window_size o state) as [[ch ->]| ->];
      [|exact H].
    cbn [apply_operation].
    destruct ch; try exact H;
      (apply Z.mod_divide in H; [|lia]); destruct H as [k Hk];
      cbn [handle_key window_size set_window_size].
    - unfold PING_HISTORY_LENGTH. rewrite Hk.
      destruct (Z.min_spec (k * 10 + 10) 300) as [[_ ->]|[_ ->]];
        [|reflexivity].
      replace (k * 10 + 10) with ((k + 1) * 10) by lia.
      apply Z.mod_mul. lia.
    - unfold MIN_WINDOW_SIZE. rewrite Hk.
      destruct (k * 10 - 10 <? 10); [reflexivity|].
      replace (k * 10 - 10) with ((k - 1) * 10) by lia.
      apply Z.mod_mul. lia. }
  apply G. reflexivity.
Qed.

(** C7: the + command sets the window size to min(window_size + 10, 300)
    and the - command to max(window_size - 10, 10); at a bound the
    command leaves the window size at that bound; every operation keeps
    the window size within [10, 300], and so it is within these bounds in
    every reachable state. *)
Theorem window_size_clamped :
  (forall state,
      window_size (handle_key key_plus state)
      = Z.min (window_size state + 10) 300 /\
      window_size (handle_key key_minus state)
      = Z.max (window_size state - 10) 10) /\
  (forall state,
      window_size state = PING_HISTORY_LENGTH ->
      window_size (handle_key key_plus state) = PING_HISTORY_LENGTH) /\
  (forall state,
      window_size state = MIN_WINDOW_SIZE ->
      window_size (handle_key key_minus state) = MIN_WINDOW_SIZE) /\
  (forall o state,
      MIN_WINDOW_SIZE <= window_size state <= PING_HISTORY_LENGTH ->
      MIN_WINDOW_SIZE <= window_size (apply_operation o state)
      <= PING_HISTORY_LENGTH) /\
  (forall target_host ops,
      let state := run_operations ops (MonitorState_init target_host) in
      MIN_WINDOW_SIZE <= window_size state <= PING_HISTORY_LENGTH).
Proof.
  assert (Hplus : forall state,
             window_size (handle_key key_plus state)
             = Z.min (window_size state + 10) 300) by reflexivity.
  assert (Hminus : forall state,
             window_size (handle_key key_minus state)
             = Z.max (window_size state - 10) 10).
  { intros state. unfold handle_key, MIN_WINDOW_SIZE.
    destruct (Z.ltb_spec (window_size state - 10) 10);
      cbn [window_size set_window_size]; lia. }
  assert (Hstep : forall o state,
             MIN_WINDOW_SIZE <= window_size state <= PING_HISTORY_LENGTH ->
             MIN_WINDOW_SIZE <= window_size (apply_operation o state)
             <= PING_HISTORY_LENGTH).
  { intros o state H. unfold MIN_WINDOW_SIZE, PING_HISTORY_LENGTH in *.
    destruct (apply_operation_window_size o state) as [[ch ->]| ->];
      [|exact H].
    cbn [apply_operation].
    destruct ch; try exact H.
    - rewrite Hplus. lia.
    - rewrite Hminus. lia. }
  split; [intros state; split; [apply Hplus|apply Hminus]|].
  split; [intros state H; rewrite Hplus, H; reflexivity|].
  split; [intros state H; rewrite Hminus, H; reflexivity|].
  split; [exact Hstep|].
  intros target_host ops. cbv zeta. unfold run_operations.
  assert (G : forall ops state,
             MIN_WINDOW_SIZE <= window_size state <= PING_HISTORY_LENGTH ->
             MIN_WINDOW_SIZE
             <= window_size (fold_left (fun st o => apply_operation o st)
                                       ops state)
             <= PING_HISTORY_LENGTH).
  { clear - Hstep. induction ops as [|o ops IH]; intros state H; [exact H|].
    cbn [fold_left]. apply IH, Hstep, H. }
  apply G. vm_compute. split; discriminate.
Qed.

Lemma window_size_clamped_witness :
  let at_top := set_window_size 300 state_after_reply in
  let at_bottom := set_window_size 10 state_after_reply in
  window_size (handle_key key_plus at_top) = PING_HISTORY_LENGTH /\
  window_size (handle_key key_minus at_bottom) = MIN_WINDOW_SIZE /\
  MIN_WINDOW_SIZE
  <= window_size (apply_operation (op_key key_minus) state_after_reply)
  <= PING_HISTORY_LENGTH.
Proof.
  cbv zeta. split; [|split].
  - apply (proj1 (proj2 window_size_clamped)). reflexivity.
  - apply (proj1 (proj2 (proj2 window_size_clamped))). reflexivity.
  - apply (proj1 (proj2 (proj2 (proj2 window_size_clamped)))).
    vm_compute. split; discriminate.
Defined.

(** ** The trace sampler *)

(** C5: a call of [traceroute_worker] while a session is running returns
    at once and leaves the whole state as it was, in particular the
    lines, the error, the summary, the timestamp and the running flag of
    the session. *)
Theorem traceroute_worker_single_flight (run : trace_run) (state : MonitorState) :
  traceroute_running state = true ->
  traceroute_worker run state = Ok state /\
  (forall state',
      traceroute_worker run state = Ok state' ->
      traceroute_lines state' = traceroute_lines state /\
      last_traceroute_error state' = last_traceroute_error state /\
      traceroute_summary state' = traceroute_summary state /\
      last_traceroute_ts state' = last_traceroute_ts state /\
      traceroute_running state' = traceroute_running state).
Proof.
  intros Hrunning.
  assert (E : traceroute_worker run state = Ok state).
  { unfold traceroute_worker. rewrite Hrunning. reflexivity. }
  split; [exact E|].
  intros state' H. rewrite E in H. injection H as <-.
  repeat split; reflexivity.
Qed.

Lemma traceroute_worker_single_flight_witness :
  traceroute_running state_tracing = true /\
  traceroute_worker scenario_run state_tracing = Ok state_tracing.
Proof.
  split; [reflexivity|].
  apply (traceroute_worker_single_flight scenario_run state_tracing).
  reflexivity.
Defined.

(** On an idle monitor the same call runs a whole session: the lines are
    stored, the flag is lowered and the summary is built. *)
Example traceroute_worker_idle :
  exists state',
    traceroute_worker scenario_run state_after_reply = Ok state' /\
    traceroute_running state' = false /\
    traceroute_lines state' = scenario_header :: scenario_trace /\
    last_traceroute_error state' = None /\
    last_traceroute_ts state' = Some 217.5%Q /\
    traceroute_summary state'
    = Some (mk_trace_summary 2 1.2 (TRACE_TIMEOUT_INFO_SOME [2])).
Proof.
  eexists. split; [vm_compute; reflexivity|].
  repeat split; reflexivity.
Qed.

(** ** The path-trace parser *)

Lemma build_traceroute_summary_first_line (first first' : string)
    (rest : list string) :
  build_traceroute_summary (first :: rest)
  = build_traceroute_summary (first' :: rest).
Proof.
  unfold build_traceroute_summary, Py.slice_from, Py.len.
  cbn [length].
  replace (Z.to_nat (if 1 <? 0
                     then Z.max 0 (1 + Z.of_nat (S (length rest)))
                     else Z.min 1 (Z.of_nat (S (length rest)))))
    with 1%nat by (cbn [Z.ltb Z.compare]; lia).
  reflexivity.
Qed.

(** C2, as the code has it: the table parser reads the two lines as hop
    1 with RTT samples [1.2, 1.1] (min 1.1, avg 1.15, max 1.2) and hop 2
    as a timeout.  [build_traceroute_summary] skips the first line of
    its input as a potential header, whatever it holds: on the two lines
    alone it reports 2 as the greatest hop number, hop 2 as the only
    timed-out hop and 0 as the maximum RTT, since the only RTT samples
    are on the skipped line; with a header line before them it reports
    2, hop 2 and 1.2. *)
Theorem build_traceroute_summary_skips_first_line :
  parse_hops scenario_trace
  = [mk_hop_record 1 "10.0.0.1" [1.2%Q; 1.1%Q]; mk_hop_record 2 "*" []] /\
  (exists avg,
      build_traceroute_table scenario_trace
      = Ok [header_row;
            hop_row 1 "10.0.0.1" (min_avg_max 1.1 avg 1.2);
            hop_row 2 "*" timeout] /\
      (avg == 1.15)%Q) /\
  (forall first first' rest,
      build_traceroute_summary (first :: rest)
      = build_traceroute_summary (first' :: rest)) /\
  build_traceroute_summary scenario_trace
  = Ok (Some (mk_trace_summary 2 0 (TRACE_TIMEOUT_INFO_SOME [2]))) /\
  build_traceroute_summary (scenario_header :: scenario_trace)
  = Ok (Some (mk_trace_summary 2 1.2 (TRACE_TIMEOUT_INFO_SOME [2]))).
Proof.
  split; [vm_compute; reflexivity|].
  split; [eexists; split; [vm_compute; reflexivity|reflexivity]|].
  split; [exact build_traceroute_summary_first_line|].
  split; vm_compute; reflexivity.
Qed.

(** C2, counterexample to "the summary reports 1.2 as the maximum RTT":
    on the two lines alone the summary gives 0 as the maximum RTT, not
    1.2, although hop 1 has RTT samples. *)
Lemma build_traceroute_summary_scenario_max_ms :
  match build_traceroute_summary scenario_trace with
  | Ok (Some summary) =>
      summary_hops summary = 2 /\
      summary_timeout_info summary = TRACE_TIMEOUT_INFO_SOME [2] /\
      (summary_max_ms summary == 0)%Q /\
      ~ (summary_max_ms summary == 1.2)%Q
  | _ => False
  end /\
  map rtts (parse_hops scenario_trace) = [[1.2%Q; 1.1%Q]; []].
Proof.
  split; [|vm_compute; reflexivity].
  vm_compute. repeat split; try reflexivity.
  intros H; discriminate H.
Qed.

(** * Further properties *)

(** ** The windowed statistics *)

Lemma compute_recent_stats_nonpositive (history : list (option float))
    (W : Z) :
  W <= 0 -> compute_recent_stats history W = Ok no_stats.
Proof.
  intros HW. unfold compute_recent_stats.
  replace (W <=? 0) with true by (symmetry; apply Z.leb_le; lia).
  reflexivity.
Qed.

Lemma compute_recent_stats_slice (h h' : list (option float)) (W W' : Z) :
  0 < W -> 0 < W' ->
  Py.slice_from h (- W) = Py.slice_from h' (- W') ->
  compute_recent_stats h W = compute_recent_stats h' W'.
Proof.
  intros HW HW' E. unfold compute_recent_stats.
  replace (W <=? 0) with false by (symmetry; apply Z.leb_gt; lia).
  replace (W' <=? 0) with false by (symmetry; apply Z.leb_gt; lia).
  rewrite E. reflexivity.
Qed.

(** Whatever [compute_recent_stats] returns describes some window: the
    entries considered, or no entry at all. *)
Lemma compute_recent_stats_describes (history : list (option float)) (W : Z)
    (s : recent_stats) :
  compute_recent_stats history W = Ok s ->
  exists window, Spec.windowedStats window s /\
                 (Py.len window <= Z.max 0 W) /\
                 exists older, history = older ++ window.
Proof.
  intros Hs. destruct (Z.ltb_spec 0 W) as [HW|HW].
  - destruct (recent_stats_of_window history W HW) as (s' & Hs' & Hspec & _).
    rewrite Hs in Hs'. injection Hs' as <-.
    exists (Spec.considered history W). split; [assumption|]. split.
    + unfold Spec.considered, Py.len. rewrite most_recent_length. lia.
    + unfold Spec.considered, Spec.most_recent.
      eexists. symmetry. apply firstn_skipn.
  - rewrite compute_recent_stats_nonpositive in Hs by assumption.
    injection Hs as <-. exists []. split; [apply windowedStats_empty|].
    split; [unfold Py.len; simpl; lia|].
    exists history. symmetry. apply app_nil_r.
Qed.

(** X1: the result depends on the history only through its last
    [window_size] entries: older entries never change it, and every
    window size that reaches the length of the history gives the result
    of the whole history. *)
Theorem compute_recent_stats_recent_only :
  (forall (older recent : list (option float)) (W : Z),
      0 < W -> W <= Py.len recent ->
      compute_recent_stats (older ++ recent) W
      = compute_recent_stats recent W) /\
  (forall (history : list (option float)) (W W' : Z),
      Py.len history <= W -> Py.len history <= W' -> 0 < W -> 0 < W' ->
      compute_recent_stats history W = compute_recent_stats history W').
Proof.
  split.
  - intros older recent W HW Hlen.
    apply compute_recent_stats_slice; try assumption.
    rewrite !slice_from_recent by assumption.
    unfold Spec.most_recent, Py.len in *. rewrite length_app.
    replace (length older + length recent
             - Nat.min (Z.to_nat W) (length older + length recent))%nat
      with (length older + (length recent - Z.to_nat W))%nat by lia.
    replace (length recent - Nat.min (Z.to_nat W) (length recent))%nat
      with (length recent - Z.to_nat W)%nat by lia.
    rewrite skipn_app.
    replace (length older + (length recent - Z.to_nat W) - length older)%nat
      with (length recent - Z.to_nat W)%nat by lia.
    rewrite skipn_all2 by lia. reflexivity.
  - intros history W W' H1 H2 HW HW'.
    apply compute_recent_stats_slice; try assumption.
    rewrite !slice_from_recent by assumption.
    unfold Spec.most_recent, Py.len in *. f_equal. lia.
Qed.

Lemma compute_recent_stats_recent_only_witness :
  compute_recent_stats ([Some 500%float; None] ++ scenario_history) 6
  = compute_recent_stats scenario_history 6 /\
  compute_recent_stats scenario_history 6
  = compute_recent_stats scenario_history LONG_WINDOW_SIZE.
Proof.
  split.
  - apply (proj1 compute_recent_stats_recent_only); [lia|].
    vm_compute. discriminate.
  - apply (proj2 compute_recent_stats_recent_only);
      vm_compute; first [reflexivity|discriminate].
Defined.

(** The counts of a result: lost within count, count within the window
    size and the length of the history. *)
Lemma recent_count_bounds (history : list (option float)) (W : Z)
    (s : recent_stats) :
  compute_recent_stats history W = Ok s ->
  0 <= recent_lost s <= recent_count s /\
  recent_count s <= Z.max 0 W /\
  recent_count s <= Py.len history.
Proof.
  intros Hs.
  destruct (compute_recent_stats_describes history W s Hs)
    as (w & (Hc & Hl & _) & Hlen & (older & Eh)).
  pose proof (present_absent_length w) as Hpa.
  assert (Hh : Py.len w <= Py.len history).
  { rewrite Eh. unfold Py.len. rewrite length_app. lia. }
  rewrite Hc, Hl. unfold Spec.count, Spec.lost, Py.len in *. lia.
Qed.

(** X2: the components of a result fit together: lost lies between 0
    and count, and count is at most the window size and the length of
    the history; average, minimum and maximum are None together,
    exactly when every entry considered is absent; jitter is None
    exactly when fewer than two entries are present; and the maximum
    is never less than the minimum. *)
Theorem compute_recent_stats_counts (history : list (option float)) (W : Z)
    (s : recent_stats) :
  compute_recent_stats history W = Ok s ->
  0 <= recent_lost s <= recent_count s /\
  recent_count s <= Z.max 0 W /\
  recent_count s <= Py.len history /\
  (recent_avg_ping_ms s = None <-> recent_lost s = recent_count s) /\
  (recent_min_ping_ms s = None <-> recent_avg_ping_ms s = None) /\
  (recent_max_ping_ms s = None <-> recent_avg_ping_ms s = None) /\
  (jitter_ms s = None <-> recent_count s - recent_lost s <= 1) /\
  (forall mn mx,
      recent_min_ping_ms s = Some mn -> recent_max_ping_ms s = Some mx ->
      (mx <? mn)%float = false).
Proof.
  intros Hs.
  destruct (recent_count_bounds history W s Hs) as (Hb1 & Hb2 & Hb3).
  split; [exact Hb1|]. split; [exact Hb2|]. split; [exact Hb3|].
  clear Hb1 Hb2 Hb3.
  destruct (compute_recent_stats_describes history W s Hs)
    as (w & (Hc & Hl & _ & Ha & Hmn & Hmx & Hj) & _).
  pose proof (present_absent_length w) as Hpa.
  rewrite Hc, Hl, Ha, Hj.
  unfold Spec.count, Spec.lost, Spec.avgRtt, Spec.jitter in *.
  unfold Spec.extreme_is in Hmn, Hmx.
  destruct (Spec.present w) as [|a [|b r]] eqn:Ep; simpl length in Hpa.
  - split; [split; [intros _; lia|reflexivity]|].
    destruct (recent_min_ping_ms s) as [mn|];
      [destruct Hmn as [[] _]|].
    destruct (recent_max_ping_ms s) as [mx|];
      [destruct Hmx as [[] _]|].
    repeat split; intros; try reflexivity; try discriminate; lia.
  - split; [split; [discriminate|intros; lia]|].
    destruct (recent_min_ping_ms s) as [mn|]; [|discriminate].
    destruct (recent_max_ping_ms s) as [mx|]; [|discriminate].
    repeat split; intros; try reflexivity; try discriminate; try lia.
    match goal with
    | H1 : Some _ = Some ?x, H2 : Some _ = Some ?y |- _ =>
        injection H1 as <-; injection H2 as <-
    end.
    destruct Hmn as [Hin _]. destruct Hmx as [_ Hall].
    rewrite Forall_forall in Hall. apply Hall. exact Hin.
  - split; [split; [discriminate|intros; lia]|].
    destruct (recent_min_ping_ms s) as [mn|]; [|discriminate].
    destruct (recent_max_ping_ms s) as [mx|]; [|discriminate].
    repeat split; intros; try reflexivity; try discriminate; try lia.
    match goal with
    | H1 : Some _ = Some ?x, H2 : Some _ = Some ?y |- _ =>
        injection H1 as <-; injection H2 as <-
    end.
    destruct Hmn as [Hin _]. destruct Hmx as [_ Hall].
    rewrite Forall_forall in Hall. apply Hall. exact Hin.
Qed.

Lemma compute_recent_stats_counts_witness :
  compute_recent_stats scenario_history 6 = Ok scenario_stats /\
  0 <= recent_lost scenario_stats <= recent_count scenario_stats.
Proof.
  assert (H : compute_recent_stats scenario_history 6 = Ok scenario_stats)
    by (vm_compute; reflexivity).
  split; [exact H|].
  exact (proj1 (compute_recent_stats_counts scenario_history 6 _ H)).
Defined.

#[local] Set Warnings "-inexact-float".

(** X3: rounding can take the windowed average out of the range of the
    samples: three samples of 0.1 add up to 0.30000000000000004 and
    average to 0.10000000000000002, above the maximum 0.1. *)
Example recent_avg_above_max :
  exists s avg mx,
    compute_recent_stats (repeat (Some 0.1%float) 3) 3 = Ok s /\
    recent_avg_ping_ms s = Some avg /\
    recent_max_ping_ms s = Some mx /\
    avg = 0.10000000000000002%float /\
    mx = 0.1%float /\
    (mx <? avg)%float = true.
Proof.
  eexists. eexists. eexists.
  split; [vm_compute; reflexivity|].
  cbn [recent_avg_ping_ms recent_max_ping_ms].
  split; [reflexivity|]. split; [reflexivity|].
  repeat split; vm_compute; reflexivity.
Qed.

#[local] Set Warnings "inexact-float".

(** ** The loss thresholds, the quality label and the alerts *)

Lemma loss_thresholds_exact_upto_300 :
  forallb (fun c =>
             forallb (fun l => loss_thresholds_exact l c)
                     (Py.range 0 (c + 1)))
    (Py.range 1 301) = true.
Proof. vm_compute. reflexivity. Qed.

(** The rounded percentage of [lost] in [count] compares with the
    thresholds as the counts do. *)
Lemma loss_pct_of_thresholds (lost count : Z) :
  0 <= lost <= count -> 1 <= count <= 300 ->
  ((loss_pct_of lost count <? 1)%float = true <-> 100 * lost < count) /\
  ((loss_pct_of lost count <? 2)%float = true <-> 100 * lost < 2 * count) /\
  ((loss_pct_of lost count <? 5)%float = true <-> 100 * lost < 5 * count) /\
  ((10 <=? loss_pct_of lost count)%float = true <-> 10 * count <= 100 * lost).
Proof.
  intros Hl Hc.
  pose proof loss_thresholds_exact_upto_300 as H.
  rewrite forallb_forall in H.
  assert (Hc' : 1 <= count < 301) by lia.
  assert (Hl' : 0 <= lost < count + 1) by lia.
  specialize (H _ (range_In _ _ _ Hc')).
  rewrite forallb_forall in H.
  specialize (H _ (range_In _ _ _ Hl')).
  unfold loss_thresholds_exact in H.
  rewrite !andb_true_iff in H. destruct H as (((H1 & H2) & H5) & H10).
  apply eqb_prop in H1, H2, H5, H10.
  rewrite H1, H2, H5, H10, !Z.ltb_lt, Z.leb_le.
  repeat split; intros; assumption.
Qed.

(** The loss percentage of a result with a positive count. *)
Lemma recent_loss_pct_of (history : list (option float)) (W : Z)
    (s : recent_stats) :
  compute_recent_stats history W = Ok s ->
  0 < recent_count s ->
  recent_loss_pct s = loss_pct_of (recent_lost s) (recent_count s).
Proof.
  intros Hs Hpos.
  destruct (compute_recent_stats_describes history W s Hs)
    as (w & (Ec & El & Ep & _) & _).
  rewrite Ep, Ec, El. unfold Spec.lossPct, loss_pct_of.
  replace (Spec.count w =? 0) with false
    by (symmetry; apply Z.eqb_neq; lia).
  reflexivity.
Qed.

(** X4: on the windows the monitor evaluates (a window size or a
    history of at most 300 entries) the rounded loss percentage compares
    with the thresholds of the quality label and of the alert exactly as
    the counts do: it is below 1, 2 or 5 exactly when 100 * lost is
    below 1, 2 or 5 times count, and at least 10 exactly when 100 * lost
    is at least 10 * count. *)
Theorem loss_pct_thresholds (history : list (option float)) (W : Z)
    (s : recent_stats) :
  compute_recent_stats history W = Ok s ->
  W <= PING_HISTORY_LENGTH \/ Py.len history <= PING_HISTORY_LENGTH ->
  0 < recent_count s ->
  ((recent_loss_pct s <? 1)%float = true
   <-> 100 * recent_lost s < recent_count s) /\
  ((recent_loss_pct s <? 2)%float = true
   <-> 100 * recent_lost s < 2 * recent_count s) /\
  ((recent_loss_pct s <? 5)%float = true
   <-> 100 * recent_lost s < 5 * recent_count s) /\
  ((10 <=? recent_loss_pct s)%float = true
   <-> 10 * recent_count s <= 100 * recent_lost s).
Proof.
  intros Hs Hlen Hpos.
  destruct (recent_count_bounds history W s Hs) as (Hl & HW & Hc).
  rewrite (recent_loss_pct_of history W s Hs Hpos).
  apply loss_pct_of_thresholds; [exact Hl|].
  unfold PING_HISTORY_LENGTH in Hlen. lia.
Qed.

Lemma loss_pct_thresholds_witness :
  compute_recent_stats scenario_history 6 = Ok scenario_stats /\
  (10 <=? recent_loss_pct scenario_stats)%float = true.
Proof.
  assert (H : compute_recent_stats scenario_history 6 = Ok scenario_stats)
    by (vm_compute; reflexivity).
  split; [exact H|].
  apply (proj2 (proj2 (proj2 (loss_pct_thresholds scenario_history 6 _ H
                                ltac:(left; vm_compute; discriminate)
                                ltac:(reflexivity))))).
  vm_compute. discriminate.
Defined.

(** X5: below 20 samples there is no label: with a window size under 20
    (the minimum window size 10 is one) or a history shorter than 20
    the label is UNKNOWN, whatever the samples are. *)
Theorem draw_quality_small_window (history : list (option float)) (W : Z) :
  W < 20 \/ Py.len history < 20 ->
  draw_quality history W = Ok QUALITY_UNKNOWN.
Proof.
  intros H. unfold draw_quality.
  destruct (compute_recent_stats history W) as [s|e] eqn:Hs.
  - cbn [bind]. f_equal.
    destruct (recent_count_bounds history W s Hs) as (_ & HW & Hh).
    unfold quality_label.
    replace (recent_count s >=? Z.max 20 (W / 2)) with false; [reflexivity|].
    symmetry. rewrite Z.geb_leb. apply Z.leb_gt. lia.
  - exfalso. destruct (Z.ltb_spec 0 W) as [HW|HW].
    + destruct (recent_stats_of_window history W HW) as (s & Hs' & _).
      congruence.
    + rewrite compute_recent_stats_nonpositive in Hs by assumption.
      discriminate.
Qed.

Lemma draw_quality_small_window_witness :
  MIN_WINDOW_SIZE < 20 /\
  draw_quality (repeat (Some 10%float) 300) MIN_WINDOW_SIZE
  = Ok QUALITY_UNKNOWN.
Proof.
  split; [reflexivity|].
  apply draw_quality_small_window. left. reflexivity.
Defined.

(** X6: over the short window no alert is raised on fewer than 5
    samples; from 5 samples on a single lost probe among them raises an
    alert, and the high-loss alert is never raised without a lost
    probe. *)
Theorem alert_text_short_window (history : list (option float))
    (short : recent_stats) :
  compute_recent_stats history SHORT_WINDOW_SIZE = Ok short ->
  (recent_count short < 5 -> alert_text short = None) /\
  (5 <= recent_count short -> 1 <= recent_lost short ->
   alert_text short <> None) /\
  (alert_text short = Some ALERT_HIGH_LOSS -> 1 <= recent_lost short).
Proof.
  intros Hs.
  destruct (recent_count_bounds history _ short Hs) as (Hl & Hten & _).
  change (Z.max 0 SHORT_WINDOW_SIZE) with 10 in Hten.
  assert (Hloss : 5 <= recent_count short ->
                  ((10 <=? recent_loss_pct short)%float = true
                   <-> 1 <= recent_lost short)).
  { intros H5.
    rewrite (recent_loss_pct_of history _ short Hs) by lia.
    destruct (loss_pct_of_thresholds (recent_lost short) (recent_count short))
      as (_ & _ & _ & H10); [lia|lia|].
    rewrite H10. lia. }
  unfold alert_text.
  change (Z.max 5 (SHORT_WINDOW_SIZE / 2)) with 5.
  destruct (recent_count short >=? 5) eqn:E5;
    rewrite Z.geb_leb in E5;
    [apply Z.leb_le in E5|apply Z.leb_gt in E5]; cbn [andb].
  2: { repeat split; intros; try reflexivity; try discriminate; lia. }
  specialize (Hloss E5).
  destruct (match recent_avg_ping_ms short, recent_max_ping_ms short with
            | Some a, Some m => (3 * a <? m)%float && (100 <? m - a)%float
            | _, _ => false
            end);
    destruct (10 <=? recent_loss_pct short)%float;
    repeat split; intros; try discriminate; try lia;
    try (apply Hloss; reflexivity);
    try match goal with
      | H : 1 <= _ |- _ => apply Hloss in H; discriminate
      end.
Qed.

Lemma alert_text_short_window_witness :
  compute_recent_stats scenario_history SHORT_WINDOW_SIZE = Ok scenario_stats /\
  alert_text scenario_stats <> None.
Proof.
  assert (H : compute_recent_stats scenario_history SHORT_WINDOW_SIZE
              = Ok scenario_stats) by (vm_compute; reflexivity).
  split; [exact H|].
  apply (proj1 (proj2 (alert_text_short_window scenario_history
                         scenario_stats H)));
    vm_compute; discriminate.
Defined.

(** ** The sampler state and the commands of the main loop *)

Lemma run_operations_snoc (ops : list operation) (o : operation)
    (state : MonitorState) :
  run_operations (ops ++ [o]) state
  = apply_operation o (run_operations ops state).
Proof. unfold run_operations. rewrite fold_left_app. reflexivity. Qed.

Lemma ping_commit_traceroute_scroll success rtt state :
  traceroute_scroll (ping_commit success rtt state) = traceroute_scroll state.
Proof. ping_commit_paths; reflexivity. Qed.

Lemma ping_commit_newest success rtt state :
  last_ping_ms (ping_commit success rtt state)
  = (if success then rtt else None).
Proof. ping_commit_paths; reflexivity. Qed.

Lemma deque_append_len_eq {A : Type} (maxlen : Z) (d : list A) (x : A) :
  0 < maxlen -> Py.len d <= maxlen ->
  Py.len (deque_append maxlen d x) = Z.min (Py.len d + 1) maxlen.
Proof.
  intros Hm Hd. unfold deque_append, Py.len in *.
  destruct (Z.eqb_spec maxlen 0); [lia|].
  destruct (Z.geb_spec (Z.of_nat (length d)) maxlen).
  - rewrite length_app. destruct d; simpl in *; lia.
  - rewrite length_app. simpl. lia.
Qed.

Lemma deque_append_last {A : Type} (maxlen : Z) (d : list A) (x dflt : A) :
  0 < maxlen -> last (deque_append maxlen d x) dflt = x.
Proof.
  intros Hm. unfold deque_append.
  destruct (Z.eqb_spec maxlen 0); [lia|].
  destruct (Py.len d >=? maxlen); apply last_last.
Qed.

(** X7: the two histories grow in lock-step: in every reachable state
    both hold min(total_sent, 300) entries, and once a probe has been
    committed the newest latency entry is [last_ping_ms]. *)
Theorem histories_lock_step (target_host : string) (ops : list operation) :
  let state := run_operations ops (MonitorState_init target_host) in
  Py.len (ping_history state) = Z.min (total_sent state) 300 /\
  Py.len (loss_history state) = Z.min (total_sent state) 300 /\
  (0 < total_sent state ->
   last (ping_history state) None = last_ping_ms state).
Proof.
  cbv zeta.
  assert (H : let state := run_operations ops (MonitorState_init target_host)
              in 0 <= total_sent state /\
                 Py.len (ping_history state) = Z.min (total_sent state) 300 /\
                 Py.len (loss_history state) = Z.min (total_sent state) 300 /\
                 (0 < total_sent state ->
                  last (ping_history state) None = last_ping_ms state)).
  { cbv zeta. induction ops as [|o ops IH] using rev_ind.
    - cbn. repeat split; lia.
    - rewrite run_operations_snoc.
      set (state := run_operations ops (MonitorState_init target_host)) in *.
      destruct IH as (H0 & Hp & Hl & Hn).
      destruct o as [success rtt|ch| | | |];
        [|destruct ch; cbn [apply_operation]; repeat split; assumption
         |cbn [apply_operation]; repeat split; assumption ..].
      cbn [apply_operation].
      rewrite ping_commit_total_sent, ping_commit_ping_history,
        ping_commit_newest.
      destruct (ping_commit_loss_history success rtt state) as (pct & ->).
      split; [lia|].
      split.
      { rewrite deque_append_len_eq; [|reflexivity|];
          unfold PING_HISTORY_LENGTH; lia. }
      split.
      { rewrite deque_append_len_eq; [|reflexivity|];
          unfold LOSS_HISTORY_LENGTH; lia. }
      intros _. apply deque_append_last. reflexivity. }
  cbv zeta in H. destruct H as (_ & Hp & Hl & Hn).
  repeat split; assumption.
Qed.

Lemma histories_lock_step_witness :
  0 < total_sent state_after_reply /\
  last (ping_history state_after_reply) None = last_ping_ms state_after_reply.
Proof.
  assert (H : 0 < total_sent state_after_reply) by reflexivity.
  split; [exact H|].
  exact (proj2 (proj2 (histories_lock_step "10.0.0.9"%string
                         [op_ping true (Some 12.5%Q)])) H).
Defined.

(** X8: the scroll position of the trace view is never negative in a
    reachable state: the up key stops at 0, the down key adds 1, the F
    key returns to 0 and nothing else writes it. *)
Theorem traceroute_scroll_nonnegative (target_host : string)
    (ops : list operation) :
  0 <= traceroute_scroll (run_operations ops (MonitorState_init target_host)).
Proof.
  induction ops as [|o ops IH] using rev_ind; [cbn; lia|].
  rewrite run_operations_snoc.
  set (state := run_operations ops (MonitorState_init target_host)) in *.
  destruct o as [success rtt|ch| | | |]; try exact IH.
  - cbn [apply_operation]. rewrite ping_commit_traceroute_scroll. exact IH.
  - destruct ch; cbn [apply_operation handle_key]; try exact IH;
      unfold set_traceroute_scroll, set_show_traceroute_full;
      cbn [traceroute_scroll]; lia.
Qed.

(** X9: the commands undo each other where the code lets them: H and K
    pressed twice restore the state, F pressed twice restores the view
    mode and leaves the scroll position at 0, R after P restores a
    monitoring state, and P and R are idempotent; - after + restores a
    window size within [10, 290] and + after - one within [20, 300],
    while at the bounds the pair moves the window by 10. *)
Theorem key_commands_round_trips (state : MonitorState) :
  handle_key key_h (handle_key key_h state) = state /\
  handle_key key_k (handle_key key_k state) = state /\
  handle_key key_f (handle_key key_f state) = set_traceroute_scroll 0 state /\
  (monitoring state = true ->
   handle_key key_r (handle_key key_p state) = state) /\
  handle_key key_p (handle_key key_p state) = handle_key key_p state /\
  handle_key key_r (handle_key key_r state) = handle_key key_r state /\
  (10 <= window_size state <= 290 ->
   handle_key key_minus (handle_key key_plus state) = state) /\
  (20 <= window_size state <= 300 ->
   handle_key key_plus (handle_key key_minus state) = state) /\
  (window_size state = 300 ->
   window_size (handle_key key_minus (handle_key key_plus state)) = 290) /\
  (window_size state = 10 ->
   window_size (handle_key key_plus (handle_key key_minus state)) = 20).
Proof.
  destruct state as [host run mon help full scroll ctl sent recv lastp
                      nsucc rsum mn mx lasts jsum jcnt ph lh wsz
                      tl trun terr tsum tts].
  cbn [monitoring window_size].
  split; [cbn; rewrite negb_involutive; reflexivity|].
  split; [cbn; rewrite negb_involutive; reflexivity|].
  split; [cbn; rewrite negb_involutive; reflexivity|].
  split; [intros ->; reflexivity|].
  split; [reflexivity|]. split; [reflexivity|].
  unfold handle_key, set_window_size, MIN_WINDOW_SIZE, PING_HISTORY_LENGTH.
  cbn [window_size].
  repeat split; intros H.
  - replace (Z.min (wsz + 10) 300) with (wsz + 10) by lia.
    replace (wsz + 10 - 10 <? 10) with false by (symmetry; apply Z.ltb_ge; lia).
    replace (wsz + 10 - 10) with wsz by lia. reflexivity.
  - replace (wsz - 10 <? 10) with false by (symmetry; apply Z.ltb_ge; lia).
    replace (Z.min (wsz - 10 + 10) 300) with wsz by lia. reflexivity.
  - subst wsz. reflexivity.
  - subst wsz. reflexivity.
Qed.

Lemma key_commands_round_trips_witness :
  monitoring state_after_reply = true /\
  handle_key key_r (handle_key key_p state_after_reply) = state_after_reply /\
  handle_key key_minus (handle_key key_plus state_after_reply)
  = state_after_reply.
Proof.
  split; [reflexivity|]. split.
  - apply (proj1 (proj2 (proj2 (proj2
             (key_commands_round_trips state_after_reply))))).
    reflexivity.
  - apply (proj1 (proj2 (proj2 (proj2 (proj2 (proj2 (proj2
             (key_commands_round_trips state_after_reply)))))))).
    vm_compute. split; discriminate.
Defined.
